(** * squiggy/api/api_util.py: access decisions and login glue

    A shallow embedding of the authorization helpers of
    [squiggy/api/api_util.py] and the properties its specification states
    about them.

    The Python module reads process-wide state ([app.config], [current_user],
    [request.path], [db.session]), logs warnings, runs one SQL query and may
    raise.  All of that is threaded explicitly through a small state and
    exception monad [M] over a [World]. *)

From Stdlib Require Import ZArith List Bool String Ascii Lia DecimalString.
Import ListNotations.

Local Open Scope Z_scope.
Local Open Scope string_scope.
Local Open Scope list_scope.

Set Implicit Arguments.

(** ** Python values *)

Module Py.

(** The values that flow through the predicates: [None], booleans,
    integers and strings. *)
Inductive value : Type :=
| None_
| Bool (b : bool)
| Int (n : Z)
| Str (s : string).

(** Truth value testing, as [if v:] / [v and ...] / [v or ...] do it. *)
Definition truthy (v : value) : bool :=
  match v with
  | None_ => false
  | Bool b => b
  | Int n => negb (Z.eqb n 0)
  | Str s => negb (String.eqb s EmptyString)
  end.

(** [needle in hay] on strings: [needle] occurs in [hay] at some offset. *)
Fixpoint str_contains (needle hay : string) : bool :=
  String.prefix needle hay
  || match hay with
     | EmptyString => false
     | String _ hay' => str_contains needle hay'
     end.

(** [str(n)] for an integer. *)
Definition str_int (n : Z) : string := NilZero.string_of_int (Z.to_int n).

(** [str(b)] for a boolean. *)
Definition str_bool (b : bool) : string := if b then "True" else "False".

End Py.

(** Identifiers are [None] or an integer (an unsaved row or an anonymous
    session has no id). *)
Definition pyid : Type := option Z.

Definition id_value (i : pyid) : Py.value :=
  match i with
  | None => Py.None_
  | Some n => Py.Int n
  end.

Definition id_truthy (i : pyid) : bool := Py.truthy (id_value i).

(** [None == n], [m == n] on identifiers. *)
Definition id_eqb (a b : pyid) : bool :=
  match a, b with
  | None, None => true
  | Some m, Some n => Z.eqb m n
  | _, _ => false
  end.

(** [str(i)] / [f'{i}'] for an identifier. *)
Definition str_id (i : pyid) : string :=
  match i with
  | None => "None"
  | Some n => Py.str_int n
  end.

(** The substring relation the specification speaks of. *)
Definition Contains (needle hay : string) : Prop :=
  exists pre post, hay = (pre ++ needle ++ post)%string.

(** ** Entities

    Modelled from the spec: the entity classes ([squiggy.models],
    [squiggy.lib.login_session]) are declared outside this module; section 3
    of the specification gives their shape, and only the attributes that
    [api_util.py] reads are kept. *)

Record Course : Type := {
  course_id : Z;                  (* course.id *)
  canvas_api_domain : string;
  canvas_course_id : Z
}.

(** The ORM user: it has an [id] attribute. *)
Module User.
Record t : Type := {
  id : pyid;
  is_admin : bool;
  is_teaching : bool;
  course : Course;
  assets : list Z               (* [a.id for a in user.assets] *)
}.
End User.

(** The flask-login session user ([current_user]): it has [user_id] and no
    [id], and carries the ORM user as [user]. *)
Module LoginSession.
Record t : Type := {
  user_id : pyid;
  is_admin : bool;
  is_teaching : bool;
  is_authenticated : bool;
  course : Course;
  user : User.t
}.
End LoginSession.

(** A [user] argument is duck-typed: either of the two shapes. *)
Inductive user_obj : Type :=
| ModelUser (u : User.t)
| SessionUser (s : LoginSession.t).

Module Asset.
Record t : Type := {
  id : Z;
  course_id : Z;
  visible : bool;
  users : list User.t
}.
End Asset.

Module Comment.
Record t : Type := {
  user_id : Z
}.
End Comment.

Module Canvas.
Record t : Type := {
  canvas_api_domain : string;
  supports_custom_messaging : bool
}.
End Canvas.

(** ** The database, as far as the whiteboard query sees it *)

Module Db.

Record users_row : Type := {
  u_id : Z;
  canvas_course_role : option string      (* nullable *)
}.

Record whiteboards_row : Type := {
  w_id : Z;
  w_course_id : Z;
  deleted_at : option Z                   (* nullable timestamp *)
}.

Record whiteboard_users_row : Type := {
  wu_user_id : Z;
  wu_whiteboard_id : Z
}.

Record t : Type := {
  users : list users_row;
  whiteboards : list whiteboards_row;
  whiteboard_users : list whiteboard_users_row;
  canvas : list Canvas.t
}.

End Db.

(** ** SQL: the one query of [can_access_whiteboard] *)

Module Sql.

(** SQL's three truth values. *)
Inductive tri : Type := TRUE | FALSE | NULL.

Definition and3 (a b : tri) : tri :=
  match a, b with
  | FALSE, _ | _, FALSE => FALSE
  | TRUE, TRUE => TRUE
  | _, _ => NULL
  end.

Definition or3 (a b : tri) : tri :=
  match a, b with
  | TRUE, _ | _, TRUE => TRUE
  | FALSE, FALSE => FALSE
  | _, _ => NULL
  end.

Definition of_bool (b : bool) : tri := if b then TRUE else FALSE.

Definition is_true (t : tri) : bool :=
  match t with TRUE => true | _ => false end.

(** The conditions the query text is built from. *)
Inductive cond : Type :=
| UserIdIsParam                 (* u.id = :user_id *)
| CourseIdIsParam               (* w.course_id = :course_id *)
| UserIdInWhiteboardUsers       (* u.id IN (SELECT user_id FROM whiteboard_users
                                             WHERE whiteboard_id = :whiteboard_id) *)
| RoleILike (infix : string)    (* u.canvas_course_role ILIKE '%infix%' *)
| DeletedAtIsNull               (* w.deleted_at IS NULL *)
| And (a b : cond)
| Or (a b : cond).

(** Bound parameters.  [:whiteboard_id] is NULL when Python passes [None]. *)
Record params : Type := {
  p_course_id : Z;
  p_user_id : Z;
  p_whiteboard_id : pyid
}.

Definition lower_ascii (c : ascii) : ascii :=
  let n := nat_of_ascii c in
  if ((65 <=? n) && (n <=? 90))%nat then ascii_of_nat (n + 32) else c.

Fixpoint lower (s : string) : string :=
  match s with
  | EmptyString => EmptyString
  | String c s' => String (lower_ascii c) (lower s')
  end.

(** [x ILIKE '%infix%']: a case-insensitive occurrence; NULL on NULL. *)
Definition ilike_infix (x : option string) (infix : string) : tri :=
  match x with
  | None => NULL
  | Some s => of_bool (Py.str_contains (lower infix) (lower s))
  end.

(** [x = :p] for a NOT NULL column against a possibly NULL parameter. *)
Definition eq_param (x : Z) (p : pyid) : tri :=
  match p with
  | None => NULL
  | Some n => of_bool (Z.eqb x n)
  end.

Section Eval.
Variable d : Db.t.
Variable p : params.

(** The rows of [SELECT user_id FROM whiteboard_users WHERE
    whiteboard_id = :whiteboard_id]. *)
Definition subquery_user_ids : list Z :=
  map Db.wu_user_id
      (filter (fun r => is_true (eq_param (Db.wu_whiteboard_id r) (p_whiteboard_id p)))
              (Db.whiteboard_users d)).

Fixpoint eval (c : cond) (u : Db.users_row) (w : Db.whiteboards_row) : tri :=
  match c with
  | UserIdIsParam => of_bool (Z.eqb (Db.u_id u) (p_user_id p))
  | CourseIdIsParam => of_bool (Z.eqb (Db.w_course_id w) (p_course_id p))
  | UserIdInWhiteboardUsers =>
      of_bool (existsb (Z.eqb (Db.u_id u)) subquery_user_ids)
  | RoleILike infix => ilike_infix (Db.canvas_course_role u) infix
  | DeletedAtIsNull =>
      match Db.deleted_at w with None => TRUE | Some _ => FALSE end
  | And a b => and3 (eval a u w) (eval b u w)
  | Or a b => or3 (eval a u w) (eval b u w)
  end.

(** [FROM users u JOIN whiteboards w ON w.id = :whiteboard_id WHERE c]. *)
Definition joined (c : cond) : list (Db.users_row * Db.whiteboards_row) :=
  filter (fun uw => is_true (eq_param (Db.w_id (snd uw)) (p_whiteboard_id p))
                    && is_true (eval c (fst uw) (snd uw)))
         (list_prod (Db.users d) (Db.whiteboards d)).

(** [SELECT COUNT(DISTINCT(u.id))::int ...]. *)
Definition count_distinct_user_ids (c : cond) : Z :=
  Z.of_nat (List.length (nodup Z.eq_dec (map (fun uw => Db.u_id (fst uw)) (joined c)))).
End Eval.

End Sql.

(** ** Ambient state, exceptions and the monad *)

(** [app.config], as far as it is read here. *)
Record Config : Type := {
  FEATURE_FLAG_WHITEBOARDS : bool;
  VUE_LOCALHOST_BASE_URL : option string
}.

(** What a call leaves behind besides its result. *)
Inductive event : Type :=
| LoggerWarning (message : string)                  (* logger.warning(...) *)
| SessionExecute (sql : Sql.cond) (p : Sql.params)  (* db.session.execute(text(sql), params) *)
| LoginManagerUnauthorized.                         (* app.login_manager.unauthorized() *)

Record World : Type := {
  config : Config;
  current_user : LoginSession.t;
  request_path : string;
  db : Db.t;
  events : list event
}.

Inductive exn : Type :=
| AttributeError (object_type attribute : string)
| UnauthorizedRequestError (message : string).

Inductive outcome (A : Type) : Type :=
| Return (a : A)
| Raise (e : exn).

Arguments Return {A} a.
Arguments Raise {A} e.

Definition M (A : Type) : Type := World -> outcome A * World.

Definition ret {A : Type} (a : A) : M A := fun w => (Return a, w).

Definition raise {A : Type} (e : exn) : M A := fun w => (Raise e, w).

Definition bind {A B : Type} (c : M A) (k : A -> M B) : M B :=
  fun w =>
    match c w with
    | (Return a, w') => k a w'
    | (Raise e, w') => (Raise e, w')
    end.

Notation "x <- c ;; k" := (bind c (fun x => k))
  (at level 61, c at next level, right associativity).
Notation "c ;;; k" := (bind c (fun _ => k))
  (at level 61, right associativity).

Definition gets {A : Type} (f : World -> A) : M A := fun w => (Return (f w), w).

(** The world once [e] has happened. *)
Definition record (e : event) (w : World) : World :=
  {| config := config w; current_user := current_user w;
     request_path := request_path w; db := db w;
     events := events w ++ [e] |}.

Definition emit (e : event) : M unit := fun w => (Return tt, record e w).

Definition logger_warning (message : string) : M unit :=
  emit (LoggerWarning message).

(** ** Responses *)

Record cookie : Type := {
  key : string;
  value : string;
  samesite : string;
  secure : bool
}.

Definition json : Type := list (string * Py.value).

Inductive body : Type :=
| JsonBody (obj : json)              (* tolerant_jsonify(obj, ...) *)
| RedirectBody (location : string).  (* redirect(location=...) *)

Record Response : Type := {
  response_body : body;
  status : Z;
  cookies : list cookie
}.

(** What a request handler, and so a guard around it, can hand back. *)
Inductive result : Type :=
| Flask (r : Response)
| Dict (items : json)
| UnauthorizedResponse.   (* the value of app.login_manager.unauthorized() *)

(** Modelled from the spec: [squiggy.lib.http.tolerant_jsonify(obj, status)],
    a JSON response of the given status (200 when omitted). *)
Definition tolerant_jsonify (obj : json) (status_code : Z) : Response :=
  {| response_body := JsonBody obj; status := status_code; cookies := [] |}.

Definition redirect (location : string) : Response :=
  {| response_body := RedirectBody location; status := 302; cookies := [] |}.

Definition set_cookie (r : Response) (c : cookie) : Response :=
  {| response_body := response_body r; status := status r;
     cookies := cookies r ++ [c] |}.

Definition login_manager_unauthorized : M result :=
  emit LoginManagerUnauthorized ;;; ret UnauthorizedResponse.

(** Modelled from the spec: [Canvas.find_by_domain(domain)], the Canvas
    record identified by the API domain, or [None]. *)
Definition find_by_domain (domain : string) : M (option Canvas.t) :=
  gets (fun w => find (fun c => String.eqb (Canvas.canvas_api_domain c) domain)
                      (Db.canvas (db w))).

(** [db.session.execute(text(sql), params).fetchone()]: the single row of
    the [COUNT] query, itself a single integer. *)
Definition session_execute_fetchone (sql : Sql.cond) (p : Sql.params) : M (option Z) :=
  emit (SessionExecute sql p) ;;;
  gets (fun w => Some (Sql.count_distinct_user_ids (db w) p sql)).

(** ** Attribute access on a duck-typed user *)

Definition hasattr_id (u : user_obj) : bool :=
  match u with
  | ModelUser _ => true
  | SessionUser _ => false
  end.

Definition attr_is_admin (u : user_obj) : bool :=
  match u with
  | ModelUser m => User.is_admin m
  | SessionUser s => LoginSession.is_admin s
  end.

Definition attr_is_teaching (u : user_obj) : bool :=
  match u with
  | ModelUser m => User.is_teaching m
  | SessionUser s => LoginSession.is_teaching s
  end.

Definition attr_course (u : user_obj) : Course :=
  match u with
  | ModelUser m => User.course m
  | SessionUser s => LoginSession.course s
  end.

(** [user.<name>] where [user] may be [None]: [None] has no attributes. *)
Definition getattr {A : Type} (user : option user_obj) (name : string)
    (field : user_obj -> A) : M A :=
  match user with
  | Some u => ret (field u)
  | None => raise (AttributeError "NoneType" name)
  end.

(** [_get_user_id(user)]:
    [user and (user.id if hasattr(user, 'id') else user.user_id)]. *)
Definition _get_user_id (user : option user_obj) : pyid :=
  match user with
  | None => None
  | Some (ModelUser m) => User.id m
  | Some (SessionUser s) => LoginSession.user_id s
  end.

(** A positional argument of a handler: a mapping with [.get].  Keyword
    arguments are passed through untouched by every guard and are left out. *)
Definition mapping : Type := list (string * pyid).

Definition mapping_get (m : mapping) (k : string) : pyid :=
  match find (fun kv => String.eqb (fst kv) k) m with
  | Some kv => snd kv
  | None => None
  end.

Definition handler : Type := list mapping -> M result.

(** The condition of the query text before the optional suffix. *)
Definition whiteboard_access_sql : Sql.cond :=
  Sql.And (Sql.And Sql.UserIdIsParam Sql.CourseIdIsParam)
          (Sql.Or (Sql.Or (Sql.Or Sql.UserIdInWhiteboardUsers
                                  (Sql.RoleILike "admin"))
                          (Sql.RoleILike "instructor"))
                  (Sql.RoleILike "teacher")).

(** ** The module's functions *)

Section ApiUtil.

(** [squiggy.lib.util.is_admin] and [is_teaching]: role tests on a possibly
    missing user, used only for their truth value. *)
Variable is_admin : option user_obj -> Py.value.
Variable is_teaching : option user_obj -> Py.value.

(** [flask_login.login_user(login_session, remember=True)]. *)
Variable login_user : LoginSession.t -> M bool.

(** [current_user.to_api_json()]. *)
Variable to_api_json : LoginSession.t -> json.

(** [activities_type.enums] and [assets_type.enums]. *)
Variable activities_type : list string.
Variable assets_type : list string.

Definition admin_required (func : handler) : handler :=
  fun args =>
    cu <- gets current_user ;;
    if LoginSession.is_admin cu then func args
    else
      path <- gets request_path ;;
      logger_warning ("Unauthorized request to " ++ path) ;;;
      login_manager_unauthorized.

Definition feature_flag_whiteboards (func : handler) : handler :=
  fun args =>
    cfg <- gets config ;;
    if FEATURE_FLAG_WHITEBOARDS cfg then func args
    else
      logger_warning "Feature flag is false." ;;;
      login_manager_unauthorized.

Definition teacher_required (func : handler) : handler :=
  fun args =>
    cu <- gets current_user ;;
    let is_authorized :=
      LoginSession.is_authenticated cu
      && (LoginSession.is_admin cu || LoginSession.is_teaching cu) in
    if is_authorized then func args
    else
      path <- gets request_path ;;
      logger_warning ("Unauthorized request to " ++ path) ;;;
      login_manager_unauthorized.

Definition can_access_whiteboard (user : option user_obj) (whiteboard_id : pyid)
    : M Py.value :=
  cfg <- gets config ;;
  if negb (FEATURE_FLAG_WHITEBOARDS cfg) then ret (Py.Bool false)
  else if Py.truthy (is_admin user) then ret (Py.Bool true)
  else
    match _get_user_id user with
    | Some user_id =>
        if negb (Z.eqb user_id 0) then
          let sql :=
            if negb (Py.truthy (is_teaching user))
            then Sql.And whiteboard_access_sql Sql.DeletedAtIsNull
            else whiteboard_access_sql in
          course <- getattr user "course" attr_course ;;
          let params :=
            {| Sql.p_course_id := course_id course;
               Sql.p_user_id := user_id;
               Sql.p_whiteboard_id := whiteboard_id |} in
          count_result <- session_execute_fetchone sql params ;;
          match count_result with
          | Some n => ret (Py.Bool (Z.ltb 0 n))
          | None => ret Py.None_
          end
        else ret (Py.Bool false)
    | None => ret (Py.Bool false)
    end.

Definition whiteboard_access_required (func : handler) : handler :=
  fun args =>
    let whiteboard_id :=
      match args with
      | a0 :: _ => mapping_get a0 "whiteboardId"
      | [] => None
      end in
    cu <- gets current_user ;;
    allowed <- can_access_whiteboard (Some (SessionUser cu)) whiteboard_id ;;
    if Py.truthy allowed then func args
    else
      path <- gets request_path ;;
      logger_warning ("Unauthorized request to " ++ path) ;;;
      ret (Dict [("status", Py.Int 404)]).

Definition _filter_per_feature_flag (enums : list string) : M (list string) :=
  cfg <- gets config ;;
  let feature_flag := FEATURE_FLAG_WHITEBOARDS cfg in
  ret (if feature_flag then enums
       else filter (fun enum => negb (Py.str_contains "whiteboard" enum)) enums).

Definition activities_type_enums : M (list string) :=
  _filter_per_feature_flag activities_type.

Definition assets_type_enums : M (list string) :=
  _filter_per_feature_flag assets_type.

Definition can_update_asset (user : option user_obj) (asset : Asset.t) : M Py.value :=
  let user_id := _get_user_id user in
  let user_ids := map User.id (Asset.users asset) in
  course <- getattr user "course" attr_course ;;
  if Z.eqb (course_id course) (Asset.course_id asset) then
    if Py.truthy (is_teaching user) then ret (is_teaching user)
    else if Py.truthy (is_admin user) then ret (is_admin user)
    else ret (Py.Bool (existsb (id_eqb user_id) user_ids))
  else ret (Py.Bool false).

Definition can_view_asset (asset : Asset.t) (user : option user_obj) : M Py.value :=
  user_and_is_admin <-
    match user with
    | Some _ => getattr user "is_admin" attr_is_admin
    | None => ret false
    end ;;
  if user_and_is_admin then ret (Py.Bool true)
  else
    no_user_or_other_course <-
      match user with
      | None => ret true
      | Some _ =>
          course <- getattr user "course" attr_course ;;
          ret (negb (Z.eqb (course_id course) (Asset.course_id asset)))
      end ;;
    if no_user_or_other_course then ret (Py.Bool false)
    else if Asset.visible asset then ret (Py.Bool true)
    else
      cu <- gets current_user ;;
      ret (Py.Bool (existsb (Z.eqb (Asset.id asset))
                            (User.assets (LoginSession.user cu)))).

Definition can_delete_comment (comment : Comment.t) (user : option user_obj)
    : M Py.value :=
  let user_id := _get_user_id user in
  if id_truthy user_id then
    if id_eqb (Some (Comment.user_id comment)) user_id then ret (Py.Bool true)
    else
      admin <- getattr user "is_admin" attr_is_admin ;;
      if admin then ret (Py.Bool true)
      else
        teaching <- getattr user "is_teaching" attr_is_teaching ;;
        ret (Py.Bool teaching)
  else ret (id_value user_id).

Definition can_update_comment (comment : Comment.t) (user : option user_obj)
    : M Py.value :=
  let user_id := _get_user_id user in
  if id_truthy user_id then
    if id_eqb (Some (Comment.user_id comment)) user_id then ret (Py.Bool true)
    else
      admin <- getattr user "is_admin" attr_is_admin ;;
      if admin then ret (Py.Bool true)
      else
        teaching <- getattr user "is_teaching" attr_is_teaching ;;
        ret (Py.Bool teaching)
  else ret (id_value user_id).

(** Truth value of an optional string argument such as [tool_id]. *)
Definition str_truthy (s : option string) : bool :=
  match s with
  | None => false
  | Some x => Py.truthy (Py.Str x)
  end.

(** [f'{s}'] for an optional string. *)
Definition str_opt (s : option string) : string :=
  match s with
  | None => "None"
  | Some x => x
  end.

Definition start_login_session (login_session : LoginSession.t)
    (redirect_path tool_id : option string) : M Response :=
  logged_in <- login_user login_session ;;
  cu <- gets current_user ;;
  let authenticated := logged_in && LoginSession.is_authenticated cu in
  if authenticated then
    cfg <- gets config ;;
    let response :=
      if str_truthy redirect_path
      then redirect (match VUE_LOCALHOST_BASE_URL cfg with
                     | Some base => if Py.truthy (Py.Str base) then base else EmptyString
                     | None => EmptyString
                     end ++ str_opt redirect_path)%string
      else tolerant_jsonify (to_api_json cu) 200 in
    let canvas_api_domain := canvas_api_domain (LoginSession.course cu) in
    canvas <- find_by_domain canvas_api_domain ;;
    let canvas_course_id := canvas_course_id (LoginSession.course cu) in
    let key := (canvas_api_domain ++ "|" ++ Py.str_int canvas_course_id)%string in
    let value := str_id (LoginSession.user_id cu) in
    let response :=
      set_cookie response
        {| key := key; value := value; samesite := "None"; secure := true |} in
    match canvas with
    | None => raise (AttributeError "NoneType" "supports_custom_messaging")
    | Some c =>
        ret (set_cookie response
               {| key := (canvas_api_domain ++ "_supports_custom_messaging")%string;
                  value := Py.str_bool (Canvas.supports_custom_messaging c);
                  samesite := "None"; secure := true |})
    end
  else if str_truthy tool_id then
    raise (UnauthorizedRequestError
             ("Unauthorized user during " ++ str_opt tool_id
              ++ " LTI launch (user_id = "
              ++ str_id (LoginSession.user_id login_session) ++ ")")%string)
  else
    ret (tolerant_jsonify
           [("message",
             Py.Str ("User " ++ str_id (LoginSession.user_id login_session)
                     ++ " failed to authenticate.")%string)]
           403).

End ApiUtil.

(** ** Vocabulary of the statements *)

(** The user is a recorded member of the whiteboard. *)
Definition whiteboard_member (d : Db.t) (user_id whiteboard_id : Z) : Prop :=
  exists r, In r (Db.whiteboard_users d)
            /\ Db.wu_user_id r = user_id
            /\ Db.wu_whiteboard_id r = whiteboard_id.

(** The user's course role contains [word], case-insensitively. *)
Definition role_mentions (u : Db.users_row) (word : string) : Prop :=
  exists role, Db.canvas_course_role u = Some role
               /\ Contains (Sql.lower word) (Sql.lower role).

(** The user row exists and is a member of the whiteboard or has a staff
    role. *)
Definition member_or_staff (d : Db.t) (user_id whiteboard_id : Z) : Prop :=
  exists u, In u (Db.users d)
            /\ Db.u_id u = user_id
            /\ (whiteboard_member d user_id whiteboard_id
                \/ role_mentions u "admin"
                \/ role_mentions u "instructor"
                \/ role_mentions u "teacher").

(** Some row of the requested whiteboard is in the user's course and, unless
    the user counts as teaching, not soft-deleted; and the user row is a
    member or staff. *)
Definition whiteboard_reachable (d : Db.t) (course : Z) (teaching : bool)
    (user_id whiteboard_id : Z) : Prop :=
  (exists wb, In wb (Db.whiteboards d)
              /\ Db.w_id wb = whiteboard_id
              /\ Db.w_course_id wb = course
              /\ (teaching = true \/ Db.deleted_at wb = None))
  /\ member_or_staff d user_id whiteboard_id.



(** ** Sample data

    A concrete instance of the external collaborators and a small course,
    on which the statements below are exercised. *)

Module Sample.

(** Role tests that read the flag of the user object, [None] for no user. *)
Definition is_admin (user : option user_obj) : Py.value :=
  match user with
  | None => Py.None_
  | Some u => Py.Bool (attr_is_admin u)
  end.

Definition is_teaching (user : option user_obj) : Py.value :=
  match user with
  | None => Py.None_
  | Some u => Py.Bool (attr_is_teaching u)
  end.

(** A login that succeeds exactly for an authenticated session user, which
    then becomes [current_user]. *)
Definition login_user (s : LoginSession.t) : M bool :=
  fun w =>
    if LoginSession.is_authenticated s
    then (Return true,
          {| config := config w; current_user := s;
             request_path := request_path w; db := db w; events := events w |})
    else (Return false, w).

Definition to_api_json (s : LoginSession.t) : json :=
  [("id", id_value (LoginSession.user_id s));
   ("isAdmin", Py.Bool (LoginSession.is_admin s))].

Definition activities_type : list string :=
  ["asset_comment"; "asset_like"; "whiteboard_add_asset"; "whiteboard_export"].

Definition assets_type : list string := ["file"; "link"; "whiteboard"].

Definition course1 : Course :=
  {| course_id := 1; canvas_api_domain := "bcourses.example.edu";
     canvas_course_id := 1502870 |}.

Definition course2 : Course :=
  {| course_id := 2; canvas_api_domain := "bcourses.example.edu";
     canvas_course_id := 1502871 |}.

Definition model_user (uid : pyid) (admin teaching : bool) (c : Course)
    (owned : list Z) : User.t :=
  {| User.id := uid; User.is_admin := admin; User.is_teaching := teaching;
     User.course := c; User.assets := owned |}.

Definition session (uid : pyid) (admin teaching authenticated : bool)
    (c : Course) (owned : list Z) : LoginSession.t :=
  {| LoginSession.user_id := uid; LoginSession.is_admin := admin;
     LoginSession.is_teaching := teaching;
     LoginSession.is_authenticated := authenticated;
     LoginSession.course := c;
     LoginSession.user := model_user uid admin teaching c owned |}.

(** A student (id 7, owner of asset 70), a teacher (id 8), an administrator
    (id 9), a teaching session whose id resolves to 0, and a session that
    fails to authenticate. *)
Definition student : LoginSession.t := session (Some 7) false false true course1 [70].
Definition teacher : LoginSession.t := session (Some 8) false true true course1 [].
Definition admin : LoginSession.t := session (Some 9) true false true course1 [].
Definition zero : LoginSession.t := session (Some 0) false true true course1 [].
Definition stranger : LoginSession.t := session (Some 5) false false false course1 [].

(** Whiteboard 100 of course 1 is soft-deleted and has the student as a
    member; whiteboard 101 is live. *)
Definition database : Db.t :=
  {| Db.users :=
       [ {| Db.u_id := 7; Db.canvas_course_role := Some "Student" |};
         {| Db.u_id := 8; Db.canvas_course_role := Some "urn:lti:role:ims/lis/Instructor" |};
         {| Db.u_id := 9; Db.canvas_course_role := None |} ];
     Db.whiteboards :=
       [ {| Db.w_id := 100; Db.w_course_id := 1; Db.deleted_at := Some 1660000000 |};
         {| Db.w_id := 101; Db.w_course_id := 1; Db.deleted_at := None |} ];
     Db.whiteboard_users :=
       [ {| Db.wu_user_id := 7; Db.wu_whiteboard_id := 100 |};
         {| Db.wu_user_id := 7; Db.wu_whiteboard_id := 101 |} ];
     Db.canvas :=
       [ {| Canvas.canvas_api_domain := "bcourses.example.edu";
            Canvas.supports_custom_messaging := true |} ] |}.

Definition world (flag : bool) (cu : LoginSession.t) : World :=
  {| config := {| FEATURE_FLAG_WHITEBOARDS := flag;
                  VUE_LOCALHOST_BASE_URL := None |};
     current_user := cu;
     request_path := "/api/whiteboard/100";
     db := database;
     events := [] |}.

Definition asset70 (shown : bool) : Asset.t :=
  {| Asset.id := 70; Asset.course_id := 1; Asset.visible := shown;
     Asset.users := [LoginSession.user student] |}.

Definition comment_by (author : Z) : Comment.t := {| Comment.user_id := author |}.

(** A handler that answers with an empty dictionary. *)
Definition handle : handler := fun _ => ret (Dict []).

(** The deleted whiteboard's row and the query parameters of a user of
    course 1 asking for it. *)
Definition whiteboard100 : Db.whiteboards_row :=
  {| Db.w_id := 100; Db.w_course_id := 1; Db.deleted_at := Some 1660000000 |}.

Definition params100 (uid : Z) : Sql.params :=
  {| Sql.p_course_id := 1; Sql.p_user_id := uid; Sql.p_whiteboard_id := Some 100 |}.

(** A teacher and an administrator of course 2, a session with the admin
    flag that is not authenticated, and a session that has no row in the
    [users] table. *)
Definition teacher2 : LoginSession.t := session (Some 8) false true true course2 [].
Definition admin2 : LoginSession.t := session (Some 9) true false true course2 [].
Definition ghost_admin : LoginSession.t := session (Some 9) true false false course1 [].
Definition unlisted : LoginSession.t := session (Some 42) false false true course1 [].

(** The world after the student's login, and a world whose database has no
    Canvas record. *)
Definition canvas_record : Canvas.t :=
  {| Canvas.canvas_api_domain := "bcourses.example.edu";
     Canvas.supports_custom_messaging := true |}.

Definition world_without_canvas (cu : LoginSession.t) : World :=
  {| config := {| FEATURE_FLAG_WHITEBOARDS := true;
                  VUE_LOCALHOST_BASE_URL := Some "https://localhost:8080" |};
     current_user := cu;
     request_path := "/api/auth/dev_auth_login";
     db := {| Db.users := Db.users database;
              Db.whiteboards := Db.whiteboards database;
              Db.whiteboard_users := Db.whiteboard_users database;
              Db.canvas := [] |};
     events := [] |}.

(** A role test that accepts everybody. *)
Definition everyone (user : option user_obj) : Py.value := Py.Bool true.

End Sample.


(** * Properties *)

(** ** Strings *)

Lemma prefix_iff_append (needle hay : string) :
  String.prefix needle hay = true <-> exists post, hay = (needle ++ post)%string.
Proof.
  revert hay; induction needle as [|a needle IH]; intros hay.
  - destruct hay; simpl; split; intros _; eauto.
  - destruct hay as [|b hay]; simpl.
    + split; [discriminate | intros [post H]; discriminate].
    + destruct (ascii_dec a b) as [->|Hab].
      * rewrite IH. split; intros [post H]; exists post.
        -- now rewrite H.
        -- now inversion H.
      * split; [discriminate | intros [post H]; inversion H; congruence].
Qed.

Lemma str_contains_iff (needle hay : string) :
  Py.str_contains needle hay = true <-> Contains needle hay.
Proof.
  unfold Contains.
  induction hay as [|c hay IH].
  - cbn [Py.str_contains]. rewrite orb_false_r, prefix_iff_append. split.
    + intros [post H]. exists EmptyString, post. exact H.
    + intros [pre [post H]]. destruct pre; [eauto | discriminate].
  - cbn [Py.str_contains]. rewrite orb_true_iff, IH, prefix_iff_append. split.
    + intros [[post H] | [pre [post H]]].
      * exists EmptyString, post. exact H.
      * exists (String c pre), post. simpl. now rewrite H.
    + intros [pre [post H]]. destruct pre as [|c' pre].
      * left. exists post. exact H.
      * right. simpl in H. inversion H. eauto.
Qed.

Lemma str_contains_false_iff (needle hay : string) :
  Py.str_contains needle hay = false <-> ~ Contains needle hay.
Proof.
  rewrite <- str_contains_iff. destruct (Py.str_contains needle hay); split; congruence.
Qed.

(** ** The monad *)

Lemma bind_return {A B : Type} (c : M A) (k : A -> M B) (w w' : World) (a : A) :
  c w = (Return a, w') -> bind c k w = k a w'.
Proof. intros H. unfold bind. now rewrite H. Qed.

Lemma bind_raise {A B : Type} (c : M A) (k : A -> M B) (w w' : World) (e : exn) :
  c w = (Raise e, w') -> bind c k w = (Raise e, w').
Proof. intros H. unfold bind. now rewrite H. Qed.

Lemma id_truthy_iff (i : pyid) :
  id_truthy i = true <-> exists n, i = Some n /\ n <> 0.
Proof.
  destruct i as [n|]; cbn.
  - rewrite negb_true_iff, Z.eqb_neq. split; [eauto | intros [m [[= <-] H]]; exact H].
  - split; [discriminate | intros [n [H _]]; discriminate].
Qed.

Lemma existsb_id_eqb_iff (i : pyid) (l : list pyid) :
  existsb (id_eqb i) l = true <-> In i l.
Proof.
  rewrite existsb_exists. split.
  - intros [j [Hin Heq]].
    destruct i as [m|], j as [n|]; cbn in Heq; try discriminate; [|exact Hin].
    apply Z.eqb_eq in Heq. now subst.
  - intros Hin. exists i. split; [exact Hin|].
    destruct i; cbn; [apply Z.eqb_refl | reflexivity].
Qed.

Lemma existsb_Zeqb_iff (x : Z) (l : list Z) :
  existsb (Z.eqb x) l = true <-> In x l.
Proof.
  rewrite existsb_exists. split.
  - intros [y [Hin Heq]]. apply Z.eqb_eq in Heq. now subst.
  - intros Hin. exists x. split; [exact Hin | apply Z.eqb_refl].
Qed.

Section Properties.

Variable is_admin : option user_obj -> Py.value.
Variable is_teaching : option user_obj -> Py.value.
Variable login_user : LoginSession.t -> M bool.
Variable to_api_json : LoginSession.t -> json.
Variable activities_type : list string.
Variable assets_type : list string.

(** ** Enum filtering *)

Lemma filter_per_feature_flag_off (enums : list string) (w : World) :
  FEATURE_FLAG_WHITEBOARDS (config w) = false ->
  exists tags,
    _filter_per_feature_flag enums w = (Return tags, w)
    /\ (forall tag, In tag tags <-> In tag enums /\ ~ Contains "whiteboard" tag)
    /\ (forall tag, ~ Contains "whiteboard" tag ->
          count_occ string_dec tags tag = count_occ string_dec enums tag).
Proof.
  intros Hflag. unfold _filter_per_feature_flag, bind, gets, ret. rewrite Hflag.
  eexists. split; [reflexivity|]. split.
  - intros tag. rewrite filter_In, negb_true_iff, str_contains_false_iff. tauto.
  - intros tag Htag. apply str_contains_false_iff in Htag.
    induction enums as [|e enums' IH]; [reflexivity|].
    cbn [filter]. destruct (Py.str_contains "whiteboard" e) eqn:He; cbn [negb].
    + cbn [count_occ]. destruct (string_dec e tag) as [->|_]; [congruence | exact IH].
    + cbn [count_occ]. destruct (string_dec e tag); [f_equal|]; exact IH.
Qed.

Lemma filter_per_feature_flag_on (enums : list string) (w : World) :
  FEATURE_FLAG_WHITEBOARDS (config w) = true ->
  _filter_per_feature_flag enums w = (Return enums, w).
Proof.
  intros Hflag. unfold _filter_per_feature_flag, bind, gets, ret. now rewrite Hflag.
Qed.

(** C8. With the whiteboards flag disabled, [activities_type_enums()] and
    [assets_type_enums()] return exactly the tags of the registry that do not
    contain the substring "whiteboard": a tag is in the result iff it is in
    the registry and does not contain it, and every other tag keeps its
    number of occurrences.  With the flag enabled they return the registry
    unchanged.  The world is left as it was. *)
Theorem C8_type_enums_filtered_by_flag (w : World) :
  exists activities assets,
    activities_type_enums activities_type w = (Return activities, w)
    /\ assets_type_enums assets_type w = (Return assets, w)
    /\ if FEATURE_FLAG_WHITEBOARDS (config w)
       then activities = activities_type /\ assets = assets_type
       else (forall tag, In tag activities <->
                         In tag activities_type /\ ~ Contains "whiteboard" tag)
            /\ (forall tag, In tag assets <->
                            In tag assets_type /\ ~ Contains "whiteboard" tag)
            /\ (forall tag, ~ Contains "whiteboard" tag ->
                  count_occ string_dec activities tag
                  = count_occ string_dec activities_type tag
                  /\ count_occ string_dec assets tag
                     = count_occ string_dec assets_type tag).
Proof.
  unfold activities_type_enums, assets_type_enums.
  destruct (FEATURE_FLAG_WHITEBOARDS (config w)) eqn:Hflag.
  - exists activities_type, assets_type.
    rewrite !filter_per_feature_flag_on by exact Hflag. auto.
  - destruct (filter_per_feature_flag_off activities_type w Hflag)
      as [activities [Ha [Ha_in Ha_count]]].
    destruct (filter_per_feature_flag_off assets_type w Hflag)
      as [assets [Hs [Hs_in Hs_count]]].
    exists activities, assets.
    split; [exact Ha|]. split; [exact Hs|]. split; [exact Ha_in|].
    split; [exact Hs_in|]. intros tag Htag. split; auto.
Qed.

(** ** Predicates that do not touch the database *)

(** C1. With [FEATURE_FLAG_WHITEBOARDS] off, [can_access_whiteboard] returns
    [False] for every user (a missing one and an administrator included) and
    every whiteboard id, whatever [is_admin] answers: the flag is tested
    before the administrator short-circuit.  Nothing is logged or queried. *)
Theorem C1_flag_off_denies_every_user (w : World) (user : option user_obj)
    (whiteboard_id : pyid) :
  FEATURE_FLAG_WHITEBOARDS (config w) = false ->
  can_access_whiteboard is_admin is_teaching user whiteboard_id w
  = (Return (Py.Bool false), w).
Proof.
  intros Hflag. unfold can_access_whiteboard, bind, gets. now rewrite Hflag.
Qed.

(** C2. For a present, non-admin user of the asset's course,
    [can_view_asset] returns [True] iff the asset is visible or its id is in
    the asset list of the ambient [current_user]; the asset list of the
    [user] argument is never read, so any two such arguments get the same
    answer in the same world. *)
Theorem C2_can_view_asset_reads_session_assets (w : World) (asset : Asset.t)
    (u : user_obj) :
  attr_is_admin u = false ->
  course_id (attr_course u) = Asset.course_id asset ->
  (exists b,
      can_view_asset asset (Some u) w = (Return (Py.Bool b), w)
      /\ (b = true <->
          Asset.visible asset = true
          \/ In (Asset.id asset) (User.assets (LoginSession.user (current_user w)))))
  /\ (forall u',
        attr_is_admin u' = false ->
        course_id (attr_course u') = Asset.course_id asset ->
        can_view_asset asset (Some u') w = can_view_asset asset (Some u) w).
Proof.
  intros Hadmin Hcourse.
  assert (Hrun : forall x,
             attr_is_admin x = false ->
             course_id (attr_course x) = Asset.course_id asset ->
             can_view_asset asset (Some x) w
             = (Return (Py.Bool (Asset.visible asset
                                 || existsb (Z.eqb (Asset.id asset))
                                      (User.assets (LoginSession.user (current_user w))))),
                w)).
  { intros x Hx Hc. unfold can_view_asset, bind, getattr, ret, gets.
    rewrite Hx, Hc, Z.eqb_refl. cbn [negb].
    now destruct (Asset.visible asset). }
  split.
  - eexists. split; [apply Hrun; assumption|].
    now rewrite orb_true_iff, existsb_Zeqb_iff.
  - intros u' Hadmin' Hcourse'. now rewrite !Hrun.
Qed.

(** C4. For a present user, [can_update_asset] returns, and its result is
    truthy iff the user's course id is the asset's course id and the user is
    teaching, or is an administrator, or has a resolved id among the ids of
    the asset's users.  When the courses differ the result is [False]. *)
Theorem C4_can_update_asset_iff (w : World) (u : user_obj) (asset : Asset.t) :
  exists v,
    can_update_asset is_admin is_teaching (Some u) asset w = (Return v, w)
    /\ (Py.truthy v = true <->
        course_id (attr_course u) = Asset.course_id asset
        /\ (Py.truthy (is_teaching (Some u)) = true
            \/ Py.truthy (is_admin (Some u)) = true
            \/ In (_get_user_id (Some u)) (map User.id (Asset.users asset))))
    /\ (course_id (attr_course u) <> Asset.course_id asset -> v = Py.Bool false).
Proof.
  unfold can_update_asset, bind, getattr, ret.
  destruct (Z.eqb_spec (course_id (attr_course u)) (Asset.course_id asset)) as [Hc|Hc].
  - destruct (Py.truthy (is_teaching (Some u))) eqn:Ht;
      [|destruct (Py.truthy (is_admin (Some u))) eqn:Ha];
      eexists; (split; [reflexivity|]); (split; [|congruence]).
    + rewrite Ht. tauto.
    + rewrite Ha. tauto.
    + cbn [Py.truthy]. rewrite existsb_id_eqb_iff. intuition congruence.
  - eexists. split; [reflexivity|]. split; [|reflexivity].
    cbn. split; [discriminate | tauto].
Qed.

(** C6. [can_delete_comment] and [can_update_comment] agree on every
    comment and user, and their result is truthy iff the user's resolved id
    is truthy and the comment's author is that id, or the user is an
    administrator, or the user is teaching. *)
Theorem C6_comment_predicates_agree (w : World) (comment : Comment.t)
    (user : option user_obj) :
  can_delete_comment comment user w = can_update_comment comment user w
  /\ exists v,
       can_delete_comment comment user w = (Return v, w)
       /\ (Py.truthy v = true <->
           id_truthy (_get_user_id user) = true
           /\ (_get_user_id user = Some (Comment.user_id comment)
               \/ (exists u, user = Some u /\ attr_is_admin u = true)
               \/ (exists u, user = Some u /\ attr_is_teaching u = true))).
Proof.
  split; [reflexivity|].
  unfold can_delete_comment.
  destruct (id_truthy (_get_user_id user)) eqn:Hid.
  - destruct user as [u|]; [|discriminate Hid].
    destruct (_get_user_id (Some u)) as [n|] eqn:Hn; [|discriminate Hid].
    cbn [id_eqb]. unfold bind, getattr, ret.
    destruct (Z.eqb_spec (Comment.user_id comment) n) as [He|He].
    + eexists. split; [reflexivity|]. cbn. subst n. tauto.
    + destruct (attr_is_admin u) eqn:Ha.
      * eexists. split; [reflexivity|]. cbn.
        split; [intros _; split; eauto 6 | reflexivity].
      * eexists. split; [reflexivity|]. cbn [Py.truthy]. split.
        -- intros Ht. split; eauto 6.
        -- intros [_ [H | [[u' [[= <-] H]] | [u' [[= <-] H]]]]]; congruence.
  - eexists. split; [reflexivity|]. fold (id_truthy (_get_user_id user)).
    rewrite Hid. split; [discriminate | tauto].
Qed.

(** C9. [can_update_asset] faults on [user = None]: the first thing its
    return expression evaluates is [user.course.id], which raises
    [AttributeError]; for a present user it returns.  [can_view_asset] and
    the comment predicates return a falsy value for [None] instead. *)
Theorem C9_can_update_asset_faults_on_missing_user (w : World) (asset : Asset.t)
    (comment : Comment.t) :
  can_update_asset is_admin is_teaching None asset w
  = (Raise (AttributeError "NoneType" "course"), w)
  /\ (forall u, exists v,
         can_update_asset is_admin is_teaching (Some u) asset w = (Return v, w))
  /\ can_view_asset asset None w = (Return (Py.Bool false), w)
  /\ can_delete_comment comment None w = (Return Py.None_, w)
  /\ can_update_comment comment None w = (Return Py.None_, w).
Proof.
  split; [reflexivity|]. split; [|repeat split].
  intros u. unfold can_update_asset, bind, getattr, ret.
  destruct (Z.eqb (course_id (attr_course u)) (Asset.course_id asset)); [|eauto].
  destruct (Py.truthy (is_teaching (Some u))); [eauto|].
  destruct (Py.truthy (is_admin (Some u))); eauto.
Qed.

(** C10. A falsy resolved id (0 or [None]) counts as no id.  For such a
    user that [is_admin] does not accept, [can_access_whiteboard] returns
    [False] and leaves the world untouched, so no query is executed; and
    the comment predicates return the falsy id itself, whoever wrote the
    comment and whatever the user's admin and teaching flags are. *)
Theorem C10_falsy_id_is_no_id (w : World) (user : option user_obj)
    (whiteboard_id : pyid) (comment : Comment.t) :
  id_truthy (_get_user_id user) = false ->
  (Py.truthy (is_admin user) = false ->
   can_access_whiteboard is_admin is_teaching user whiteboard_id w
   = (Return (Py.Bool false), w))
  /\ exists v,
       Py.truthy v = false
       /\ can_delete_comment comment user w = (Return v, w)
       /\ can_update_comment comment user w = (Return v, w).
Proof.
  intros Hid. split.
  - intros Hadmin. unfold can_access_whiteboard, bind, gets. rewrite Hadmin.
    destruct (FEATURE_FLAG_WHITEBOARDS (config w)); cbn [negb]; [|reflexivity].
    destruct (_get_user_id user) as [n|]; [|reflexivity].
    cbn in Hid. now rewrite Hid.
  - exists (id_value (_get_user_id user)). split; [exact Hid|].
    unfold can_delete_comment, can_update_comment. now rewrite Hid.
Qed.

(** ** The whiteboard query *)

Lemma and3_true_iff (a b : Sql.tri) :
  Sql.and3 a b = Sql.TRUE <-> a = Sql.TRUE /\ b = Sql.TRUE.
Proof. destruct a, b; cbn; intuition congruence. Qed.

Lemma or3_true_iff (a b : Sql.tri) :
  Sql.or3 a b = Sql.TRUE <-> a = Sql.TRUE \/ b = Sql.TRUE.
Proof. destruct a, b; cbn; intuition congruence. Qed.

Lemma of_bool_true_iff (b : bool) : Sql.of_bool b = Sql.TRUE <-> b = true.
Proof. destruct b; cbn; intuition congruence. Qed.

Lemma is_true_iff (t : Sql.tri) : Sql.is_true t = true <-> t = Sql.TRUE.
Proof. destruct t; cbn; intuition congruence. Qed.

Lemma eq_param_true_iff (x : Z) (p : pyid) :
  Sql.eq_param x p = Sql.TRUE <-> p = Some x.
Proof.
  destruct p as [n|]; cbn.
  - rewrite of_bool_true_iff, Z.eqb_eq. split; [now intros -> | now intros [= ->]].
  - split; discriminate.
Qed.

Lemma ilike_infix_true_iff (u : Db.users_row) (word : string) :
  Sql.ilike_infix (Db.canvas_course_role u) word = Sql.TRUE <-> role_mentions u word.
Proof.
  unfold role_mentions, Sql.ilike_infix.
  destruct (Db.canvas_course_role u) as [role|].
  - rewrite of_bool_true_iff, str_contains_iff. split.
    + intros H. exists role. auto.
    + now intros [role' [[= <-] H]].
  - split; [discriminate | intros [role [H _]]; discriminate].
Qed.

Lemma subquery_user_ids_iff (d : Db.t) (p : Sql.params) (user_id : Z) :
  In user_id (Sql.subquery_user_ids d p) <->
  exists whiteboard_id,
    Sql.p_whiteboard_id p = Some whiteboard_id
    /\ whiteboard_member d user_id whiteboard_id.
Proof.
  unfold Sql.subquery_user_ids, whiteboard_member. rewrite in_map_iff. split.
  - intros [r [Hr Hin]]. apply filter_In in Hin. destruct Hin as [Hin Hw].
    apply is_true_iff, eq_param_true_iff in Hw. eauto 6.
  - intros [wid [Hp [r [Hin [Hu Hw]]]]]. exists r. split; [exact Hu|].
    apply filter_In. split; [exact Hin|].
    apply is_true_iff, eq_param_true_iff. now rewrite Hp, Hw.
Qed.

(** When the base condition of the query holds of a joined row. *)
Lemma whiteboard_access_sql_true_iff (d : Db.t) (p : Sql.params)
    (u : Db.users_row) (wb : Db.whiteboards_row) :
  Sql.eval d p whiteboard_access_sql u wb = Sql.TRUE <->
  Db.u_id u = Sql.p_user_id p
  /\ Db.w_course_id wb = Sql.p_course_id p
  /\ ((exists whiteboard_id,
          Sql.p_whiteboard_id p = Some whiteboard_id
          /\ whiteboard_member d (Db.u_id u) whiteboard_id)
      \/ role_mentions u "admin"
      \/ role_mentions u "instructor"
      \/ role_mentions u "teacher").
Proof.
  unfold whiteboard_access_sql. cbn [Sql.eval].
  rewrite !and3_true_iff, !or3_true_iff, !of_bool_true_iff, !Z.eqb_eq,
    !ilike_infix_true_iff, existsb_Zeqb_iff, subquery_user_ids_iff.
  tauto.
Qed.

Lemma length_nodup_pos_iff (l : list Z) :
  Z.ltb 0 (Z.of_nat (List.length (nodup Z.eq_dec l))) = true <-> exists x, In x l.
Proof.
  rewrite Z.ltb_lt. split.
  - intros H. destruct (nodup Z.eq_dec l) as [|x l'] eqn:Hl; [cbn in H; lia|].
    exists x. apply (nodup_In Z.eq_dec). rewrite Hl. now left.
  - intros [x Hx]. apply (nodup_In Z.eq_dec) in Hx.
    destruct (nodup Z.eq_dec l); [contradiction | cbn [List.length]; lia].
Qed.

(** The count is positive iff some user row joined with some whiteboard row
    of the requested id satisfies the condition. *)
Lemma count_distinct_user_ids_pos_iff (d : Db.t) (p : Sql.params) (c : Sql.cond) :
  Z.ltb 0 (Sql.count_distinct_user_ids d p c) = true <->
  exists u wb,
    In u (Db.users d) /\ In wb (Db.whiteboards d)
    /\ Sql.p_whiteboard_id p = Some (Db.w_id wb)
    /\ Sql.eval d p c u wb = Sql.TRUE.
Proof.
  unfold Sql.count_distinct_user_ids. rewrite length_nodup_pos_iff. split.
  - intros [x Hx]. apply in_map_iff in Hx. destruct Hx as [[u wb] [_ Hin]].
    unfold Sql.joined in Hin. apply filter_In in Hin. destruct Hin as [Hin Hc].
    apply in_prod_iff in Hin. apply andb_true_iff in Hc. cbn [fst snd] in Hc.
    rewrite !is_true_iff, eq_param_true_iff in Hc. exists u, wb. tauto.
  - intros [u [wb [Hu [Hwb [Hp Hc]]]]]. exists (Db.u_id u).
    apply in_map_iff. exists (u, wb). split; [reflexivity|].
    unfold Sql.joined. apply filter_In. split; [now apply in_prod_iff|].
    cbn [fst snd]. apply andb_true_iff.
    rewrite !is_true_iff, eq_param_true_iff. auto.
Qed.

(** What [can_access_whiteboard] does once the flag, the administrator and
    the id tests are passed: one query, whose condition depends on
    [is_teaching] only. *)
Lemma can_access_whiteboard_queries (w : World) (u : user_obj)
    (user_id : Z) (whiteboard_id : pyid) :
  FEATURE_FLAG_WHITEBOARDS (config w) = true ->
  Py.truthy (is_admin (Some u)) = false ->
  _get_user_id (Some u) = Some user_id ->
  user_id <> 0 ->
  let sql := if Py.truthy (is_teaching (Some u))
             then whiteboard_access_sql
             else Sql.And whiteboard_access_sql Sql.DeletedAtIsNull in
  let params := {| Sql.p_course_id := course_id (attr_course u);
                   Sql.p_user_id := user_id;
                   Sql.p_whiteboard_id := whiteboard_id |} in
  can_access_whiteboard is_admin is_teaching (Some u) whiteboard_id w
  = (Return (Py.Bool (Z.ltb 0 (Sql.count_distinct_user_ids (db w) params sql))),
     record (SessionExecute sql params) w).
Proof.
  intros Hflag Hadmin Hid Hnz. unfold can_access_whiteboard.
  unfold bind at 1. unfold gets at 1. rewrite Hflag. cbn [negb].
  rewrite Hadmin, Hid. apply Z.eqb_neq in Hnz. rewrite Hnz. cbn [negb].
  destruct (Py.truthy (is_teaching (Some u))); reflexivity.
Qed.

(** C3. Take a soft-deleted whiteboard (the only row of its id), a
    non-admin user of its course with a truthy id, and the flag on.  If
    [is_teaching] accepts the user, the query runs without the [deleted_at]
    condition and the answer is [True] exactly when the user row is a member
    of the whiteboard or has a staff role, deleted or not.  If it does not,
    the query carries [deleted_at IS NULL] and the answer is [False],
    membership notwithstanding. *)
Theorem C3_soft_deleted_whiteboard (w : World) (u : user_obj)
    (user_id : Z) (wb : Db.whiteboards_row) (stamp : Z) :
  FEATURE_FLAG_WHITEBOARDS (config w) = true ->
  Py.truthy (is_admin (Some u)) = false ->
  _get_user_id (Some u) = Some user_id ->
  user_id <> 0 ->
  In wb (Db.whiteboards (db w)) ->
  (forall wb', In wb' (Db.whiteboards (db w)) -> Db.w_id wb' = Db.w_id wb -> wb' = wb) ->
  Db.deleted_at wb = Some stamp ->
  Db.w_course_id wb = course_id (attr_course u) ->
  let params := {| Sql.p_course_id := course_id (attr_course u);
                   Sql.p_user_id := user_id;
                   Sql.p_whiteboard_id := Some (Db.w_id wb) |} in
  (Py.truthy (is_teaching (Some u)) = true ->
   exists b,
     can_access_whiteboard is_admin is_teaching (Some u) (Some (Db.w_id wb)) w
     = (Return (Py.Bool b), record (SessionExecute whiteboard_access_sql params) w)
     /\ (b = true <-> member_or_staff (db w) user_id (Db.w_id wb)))
  /\ (Py.truthy (is_teaching (Some u)) = false ->
      can_access_whiteboard is_admin is_teaching (Some u) (Some (Db.w_id wb)) w
      = (Return (Py.Bool false),
         record (SessionExecute (Sql.And whiteboard_access_sql Sql.DeletedAtIsNull)
                                params) w)).
Proof.
  intros Hflag Hadmin Hid Hnz Hin Huniq Hdel Hcourse params.
  pose proof (can_access_whiteboard_queries w u (Some (Db.w_id wb))
                Hflag Hadmin Hid Hnz) as Hrun.
  cbv zeta in Hrun. fold params in Hrun. split; intros Hteach; rewrite Hteach in Hrun.
  - eexists. split; [exact Hrun|].
    rewrite count_distinct_user_ids_pos_iff. unfold member_or_staff. split.
    + intros [urow [wb' [Hu [Hwb' [Hp Hc]]]]].
      apply whiteboard_access_sql_true_iff in Hc. cbn in Hp, Hc.
      destruct Hc as [Huid [_ Hor]]. exists urow. split; [exact Hu|].
      split; [exact Huid|]. rewrite <- Huid.
      destruct Hor as [[wid [[= <-] Hm]] | Hor]; tauto.
    + intros [urow [Hu [Huid Hor]]]. exists urow, wb.
      split; [exact Hu|]. split; [exact Hin|]. split; [reflexivity|].
      apply whiteboard_access_sql_true_iff. cbn.
      split; [exact Huid|]. split; [exact Hcourse|]. rewrite Huid.
      destruct Hor as [Hm | Hor]; [left; eauto | tauto].
  - rewrite Hrun. do 2 f_equal.
    destruct (Z.ltb 0 (Sql.count_distinct_user_ids (db w) params
                         (Sql.And whiteboard_access_sql Sql.DeletedAtIsNull))) eqn:Hc;
      [|reflexivity].
    apply count_distinct_user_ids_pos_iff in Hc.
    destruct Hc as [urow [wb' [_ [Hwb' [Hp Hc]]]]].
    cbn in Hp. injection Hp as Hp. symmetry in Hp.
    rewrite (Huniq wb' Hwb' Hp) in Hc.
    cbn [Sql.eval] in Hc. apply and3_true_iff in Hc. destruct Hc as [_ Hc].
    rewrite Hdel in Hc. discriminate.
Qed.

(** ** Guards *)

Lemma admin_required_rejects (func : handler) (args : list mapping) (w : World) :
  LoginSession.is_admin (current_user w) = false ->
  admin_required func args w
  = (Return UnauthorizedResponse,
     record LoginManagerUnauthorized
       (record (LoggerWarning ("Unauthorized request to " ++ request_path w)) w)).
Proof. intros H. unfold admin_required, bind, gets. now rewrite H. Qed.

Lemma teacher_required_rejects (func : handler) (args : list mapping) (w : World) :
  LoginSession.is_authenticated (current_user w)
  && (LoginSession.is_admin (current_user w)
      || LoginSession.is_teaching (current_user w)) = false ->
  teacher_required func args w
  = (Return UnauthorizedResponse,
     record LoginManagerUnauthorized
       (record (LoggerWarning ("Unauthorized request to " ++ request_path w)) w)).
Proof. intros H. unfold teacher_required, bind, gets. now rewrite H. Qed.

Lemma feature_flag_whiteboards_rejects (func : handler) (args : list mapping)
    (w : World) :
  FEATURE_FLAG_WHITEBOARDS (config w) = false ->
  feature_flag_whiteboards func args w
  = (Return UnauthorizedResponse,
     record LoginManagerUnauthorized (record (LoggerWarning "Feature flag is false.") w)).
Proof. intros H. unfold feature_flag_whiteboards, bind, gets. now rewrite H. Qed.

(** [can_access_whiteboard] reads the world and at most appends a query to
    its events. *)
Lemma can_access_whiteboard_frame (user : option user_obj) (whiteboard_id : pyid)
    (w w' : World) (o : outcome Py.value) :
  can_access_whiteboard is_admin is_teaching user whiteboard_id w = (o, w') ->
  config w' = config w /\ current_user w' = current_user w
  /\ request_path w' = request_path w /\ db w' = db w
  /\ (events w' = events w
      \/ exists sql p, events w' = events w ++ [SessionExecute sql p]).
Proof.
  unfold can_access_whiteboard, bind, gets, getattr, session_execute_fetchone,
    emit, ret, raise.
  destruct (FEATURE_FLAG_WHITEBOARDS (config w)); cbn [negb];
    [|intros [= _ <-]; tauto].
  destruct (Py.truthy (is_admin user)); [intros [= _ <-]; tauto|].
  destruct (_get_user_id user) as [n|]; [|intros [= _ <-]; tauto].
  destruct (Z.eqb n 0); cbn [negb]; [intros [= _ <-]; tauto|].
  destruct user as [u|]; intros [= _ <-]; cbn; eauto 10.
Qed.

(** C5. Whenever [can_access_whiteboard] returns a falsy value for the
    session user and the whiteboard id of the first positional argument,
    the guarded call returns the dictionary [{'status': 404}] after one
    warning.  The handler is not run: the outcome is the same for every
    handler, and nothing but the warning is added to what
    [can_access_whiteboard] left.  This is not the value of
    [app.login_manager.unauthorized()], which the three other guards
    return (after calling it) when they reject. *)
Theorem C5_whiteboard_access_denied_is_404 (func : handler) (args : list mapping)
    (w w' : World) (v : Py.value) :
  let whiteboard_id :=
    match args with
    | a0 :: _ => mapping_get a0 "whiteboardId"
    | [] => None
    end in
  can_access_whiteboard is_admin is_teaching
    (Some (SessionUser (current_user w))) whiteboard_id w = (Return v, w') ->
  Py.truthy v = false ->
  whiteboard_access_required is_admin is_teaching func args w
  = (Return (Dict [("status", Py.Int 404)]),
     record (LoggerWarning ("Unauthorized request to " ++ request_path w)) w')
  /\ (forall func',
         whiteboard_access_required is_admin is_teaching func' args w
         = whiteboard_access_required is_admin is_teaching func args w)
  /\ ~ In LoginManagerUnauthorized
         (skipn (List.length (events w))
            (events (snd (whiteboard_access_required is_admin is_teaching func args w))))
  /\ Dict [("status", Py.Int 404)] <> UnauthorizedResponse
  /\ (LoginSession.is_admin (current_user w) = false ->
      fst (admin_required func args w) = Return UnauthorizedResponse)
  /\ (LoginSession.is_authenticated (current_user w)
      && (LoginSession.is_admin (current_user w)
          || LoginSession.is_teaching (current_user w)) = false ->
      fst (teacher_required func args w) = Return UnauthorizedResponse)
  /\ (FEATURE_FLAG_WHITEBOARDS (config w) = false ->
      fst (feature_flag_whiteboards func args w) = Return UnauthorizedResponse).
Proof.
  intros whiteboard_id Hrun Hfalsy.
  assert (Hany : forall f,
             whiteboard_access_required is_admin is_teaching f args w
             = (Return (Dict [("status", Py.Int 404)]),
                record (LoggerWarning ("Unauthorized request to " ++ request_path w)) w')).
  { intros f. unfold whiteboard_access_required.
    unfold bind at 1. unfold gets at 1. fold whiteboard_id.
    rewrite (bind_return _ _ _ Hrun), Hfalsy.
    destruct (can_access_whiteboard_frame _ _ _ Hrun) as [_ [_ [Hpath _]]].
    unfold bind, gets, logger_warning, emit, ret. now rewrite Hpath. }
  split; [apply Hany|]. split; [intros f; now rewrite !Hany|].
  split; [|split; [discriminate|]].
  - rewrite Hany. cbn [snd record events].
    destruct (can_access_whiteboard_frame _ _ _ Hrun) as [_ [_ [_ [_ [He | [sql [p He]]]]]]];
      rewrite He; [|rewrite <- app_assoc];
      rewrite skipn_app, skipn_all, Nat.sub_diag; cbn; intuition discriminate.
  - split; [|split]; intros H.
    + now rewrite admin_required_rejects.
    + now rewrite teacher_required_rejects.
    + now rewrite feature_flag_whiteboards_rejects.
Qed.

(** ** Login *)

Lemma contains_middle (pre needle post : string) :
  Contains needle (pre ++ needle ++ post).
Proof. now exists pre, post. Qed.

Lemma append_assoc (a b c : string) : ((a ++ b) ++ c = a ++ (b ++ c))%string.
Proof. induction a as [|x a IH]; cbn; [reflexivity | now rewrite IH]. Qed.

(** C7 (amended). When the login does not establish an authenticated
    session: with a truthy (present and non-empty) [tool_id],
    [start_login_session] raises [UnauthorizedRequestError] with a message
    that contains the tool id and the login session's user id, and returns
    no response; with [tool_id] missing or empty it returns a JSON response
    of status 403 whose message contains the login session's user id. *)
Theorem C7_failed_login (login_session : LoginSession.t)
    (redirect_path tool_id : option string) (w w' : World) (logged_in : bool) :
  login_user login_session w = (Return logged_in, w') ->
  logged_in && LoginSession.is_authenticated (current_user w') = false ->
  (str_truthy tool_id = true ->
   exists tool message,
     tool_id = Some tool
     /\ start_login_session login_user to_api_json login_session redirect_path tool_id w
        = (Raise (UnauthorizedRequestError message), w')
     /\ Contains tool message
     /\ Contains (str_id (LoginSession.user_id login_session)) message)
  /\ (str_truthy tool_id = false ->
      exists message,
        start_login_session login_user to_api_json login_session redirect_path tool_id w
        = (Return {| response_body := JsonBody [("message", Py.Str message)];
                     status := 403; cookies := [] |}, w')
        /\ Contains (str_id (LoginSession.user_id login_session)) message).
Proof.
  intros Hlogin Hauth.
  assert (Hrun : start_login_session login_user to_api_json login_session
                   redirect_path tool_id w
                 = (if str_truthy tool_id
                    then raise (UnauthorizedRequestError
                                  ("Unauthorized user during " ++ str_opt tool_id
                                   ++ " LTI launch (user_id = "
                                   ++ str_id (LoginSession.user_id login_session)
                                   ++ ")"))
                    else ret (tolerant_jsonify
                                [("message",
                                  Py.Str ("User "
                                          ++ str_id (LoginSession.user_id login_session)
                                          ++ " failed to authenticate."))]
                                403)) w').
  { unfold start_login_session. rewrite (bind_return _ _ _ Hlogin).
    unfold bind at 1. unfold gets at 1. now rewrite Hauth. }
  split; intros Htool; rewrite Htool in Hrun.
  - destruct tool_id as [tool|]; [|discriminate Htool].
    exists tool. eexists. split; [reflexivity|]. split; [exact Hrun|].
    cbn [str_opt]. split.
    + apply contains_middle.
    + exists ("Unauthorized user during " ++ tool ++ " LTI launch (user_id = ")%string, ")".
      now rewrite !append_assoc.
  - eexists. split; [exact Hrun|]. apply contains_middle.
Qed.

End Properties.

(** * The statements on the sample data *)

(** The administrator is refused while the flag is off. *)
Lemma C1_witness_admin_refused :
  Py.truthy (Sample.is_admin (Some (SessionUser Sample.admin))) = true
  /\ can_access_whiteboard Sample.is_admin Sample.is_teaching
       (Some (SessionUser Sample.admin)) (Some 101) (Sample.world false Sample.admin)
     = (Return (Py.Bool false), Sample.world false Sample.admin).
Proof.
  split; [reflexivity|].
  apply (C1_flag_off_denies_every_user Sample.is_admin Sample.is_teaching
           (Sample.world false Sample.admin)).
  reflexivity.
Defined.

(** The student owns the hidden asset 70, but the session is the teacher's,
    who does not: the student argument is refused, like any other member
    of the course. *)
Lemma C2_witness_owner_argument_ignored :
  In (Asset.id (Sample.asset70 false))
     (User.assets (LoginSession.user Sample.student))
  /\ (exists b,
         can_view_asset (Sample.asset70 false) (Some (SessionUser Sample.student))
           (Sample.world true Sample.teacher)
         = (Return (Py.Bool b), Sample.world true Sample.teacher)
         /\ (b = true <->
             Asset.visible (Sample.asset70 false) = true
             \/ In (Asset.id (Sample.asset70 false))
                  (User.assets (LoginSession.user
                                  (current_user (Sample.world true Sample.teacher))))))
  /\ (forall u',
         attr_is_admin u' = false ->
         course_id (attr_course u') = Asset.course_id (Sample.asset70 false) ->
         can_view_asset (Sample.asset70 false) (Some u')
           (Sample.world true Sample.teacher)
         = can_view_asset (Sample.asset70 false) (Some (SessionUser Sample.student))
             (Sample.world true Sample.teacher)).
Proof.
  split; [simpl; auto|].
  apply (C2_can_view_asset_reads_session_assets (Sample.world true Sample.teacher)
           (Sample.asset70 false) (SessionUser Sample.student));
    reflexivity.
Defined.

(** On the deleted whiteboard 100 the teacher's query has no [deleted_at]
    condition, and the student's, a member, has it and is refused. *)
Lemma C3_witness_deleted_whiteboard :
  (Py.truthy (Sample.is_teaching (Some (SessionUser Sample.teacher))) = true ->
   exists b,
     can_access_whiteboard Sample.is_admin Sample.is_teaching
       (Some (SessionUser Sample.teacher)) (Some 100) (Sample.world true Sample.teacher)
     = (Return (Py.Bool b),
        record (SessionExecute whiteboard_access_sql (Sample.params100 8))
               (Sample.world true Sample.teacher))
     /\ (b = true <-> member_or_staff Sample.database 8 100))
  /\ (Py.truthy (Sample.is_teaching (Some (SessionUser Sample.teacher))) = false ->
      can_access_whiteboard Sample.is_admin Sample.is_teaching
        (Some (SessionUser Sample.teacher)) (Some 100) (Sample.world true Sample.teacher)
      = (Return (Py.Bool false),
         record (SessionExecute (Sql.And whiteboard_access_sql Sql.DeletedAtIsNull)
                                (Sample.params100 8))
                (Sample.world true Sample.teacher))).
Proof.
  apply (@C3_soft_deleted_whiteboard Sample.is_admin Sample.is_teaching
           (Sample.world true Sample.teacher) (SessionUser Sample.teacher)
           8 Sample.whiteboard100 1660000000).
  - reflexivity.
  - reflexivity.
  - reflexivity.
  - lia.
  - simpl. auto.
  - intros wb' [<- | [<- | []]]; [reflexivity | simpl; discriminate].
  - reflexivity.
  - reflexivity.
Defined.

(** The student is refused whiteboard 100 and the handler's empty
    dictionary is not what comes back. *)
Lemma C5_witness_student_gets_404 :
  whiteboard_access_required Sample.is_admin Sample.is_teaching Sample.handle
    [[("whiteboardId", Some 100)]] (Sample.world true Sample.student)
  = (Return (Dict [("status", Py.Int 404)]),
     record (LoggerWarning "Unauthorized request to /api/whiteboard/100")
       (record (SessionExecute (Sql.And whiteboard_access_sql Sql.DeletedAtIsNull)
                               (Sample.params100 7))
               (Sample.world true Sample.student))).
Proof.
  apply (@C5_whiteboard_access_denied_is_404 Sample.is_admin Sample.is_teaching
           Sample.handle [[("whiteboardId", Some 100)]]
           (Sample.world true Sample.student)
           (record (SessionExecute (Sql.And whiteboard_access_sql Sql.DeletedAtIsNull)
                                   (Sample.params100 7))
                   (Sample.world true Sample.student))
           (Py.Bool false)).
  - reflexivity.
  - reflexivity.
Defined.

(** The stranger's LTI launch of the asset library raises. *)
Lemma C7_witness_lti_launch_raises :
  exists tool message,
    Some "asset_library" = Some tool
    /\ start_login_session Sample.login_user Sample.to_api_json Sample.stranger
         None (Some "asset_library") (Sample.world true Sample.admin)
       = (Raise (UnauthorizedRequestError message), Sample.world true Sample.admin)
    /\ Contains tool message
    /\ Contains (str_id (LoginSession.user_id Sample.stranger)) message.
Proof.
  apply (@C7_failed_login Sample.login_user Sample.to_api_json Sample.stranger
           None (Some "asset_library") (Sample.world true Sample.admin)
           (Sample.world true Sample.admin) false).
  - reflexivity.
  - reflexivity.
  - reflexivity.
Defined.

(** An empty [tool_id] is supplied, the login fails, and a 403 response is
    returned: nothing is raised. *)
Lemma C7_counterexample_empty_tool_id :
  let w := Sample.world true Sample.admin in
  Sample.login_user Sample.stranger w = (Return false, w)
  /\ Some EmptyString <> @None string
  /\ start_login_session Sample.login_user Sample.to_api_json Sample.stranger
       None (Some EmptyString) w
     = (Return (tolerant_jsonify
                  [("message", Py.Str "User 5 failed to authenticate.")] 403), w)
  /\ forall e w',
       start_login_session Sample.login_user Sample.to_api_json Sample.stranger
         None (Some EmptyString) w <> (Raise e, w').
Proof.
  cbv zeta. split; [reflexivity|]. split; [discriminate|].
  split; [reflexivity|]. intros e w'. vm_compute. discriminate.
Qed.

(** The teaching session with id 0: no access, no query, and a falsy answer
    about its own comment. *)
Lemma C10_witness_id_zero :
  (Py.truthy (Sample.is_admin (Some (SessionUser Sample.zero))) = false ->
   can_access_whiteboard Sample.is_admin Sample.is_teaching
     (Some (SessionUser Sample.zero)) (Some 101) (Sample.world true Sample.zero)
   = (Return (Py.Bool false), Sample.world true Sample.zero))
  /\ exists v,
       Py.truthy v = false
       /\ can_delete_comment (Sample.comment_by 0) (Some (SessionUser Sample.zero))
            (Sample.world true Sample.zero)
          = (Return v, Sample.world true Sample.zero)
       /\ can_update_comment (Sample.comment_by 0) (Some (SessionUser Sample.zero))
            (Sample.world true Sample.zero)
          = (Return v, Sample.world true Sample.zero).
Proof.
  apply (C10_falsy_id_is_no_id Sample.is_admin Sample.is_teaching
           (Sample.world true Sample.zero) (Some (SessionUser Sample.zero))
           (Some 101) (Sample.comment_by 0)).
  reflexivity.
Defined.

(** The three outcomes around whiteboard deletion, run on the sample: the
    teacher reaches the deleted whiteboard, the student member does not, and
    the same student reaches the live one. *)
Example teacher_reaches_deleted_whiteboard :
  fst (can_access_whiteboard Sample.is_admin Sample.is_teaching
         (Some (SessionUser Sample.teacher)) (Some 100)
         (Sample.world true Sample.teacher))
  = Return (Py.Bool true).
Proof. reflexivity. Qed.

Example student_member_loses_deleted_whiteboard :
  whiteboard_member Sample.database 7 100
  /\ fst (can_access_whiteboard Sample.is_admin Sample.is_teaching
            (Some (SessionUser Sample.student)) (Some 100)
            (Sample.world true Sample.student))
     = Return (Py.Bool false).
Proof.
  split; [|reflexivity].
  exists {| Db.wu_user_id := 7; Db.wu_whiteboard_id := 100 |}. simpl. auto.
Qed.

Example student_member_reaches_live_whiteboard :
  fst (can_access_whiteboard Sample.is_admin Sample.is_teaching
         (Some (SessionUser Sample.student)) (Some 101)
         (Sample.world true Sample.student))
  = Return (Py.Bool true).
Proof. reflexivity. Qed.

(** A successful login through a redirect sets the two cookies. *)
Example student_login_sets_cookies :
  fst (start_login_session Sample.login_user Sample.to_api_json Sample.student
         (Some "/assets") None (Sample.world true Sample.admin))
  = Return
      {| response_body := RedirectBody "/assets";
         status := 302;
         cookies :=
           [ {| key := "bcourses.example.edu|1502870"; value := "7";
                samesite := "None"; secure := true |};
             {| key := "bcourses.example.edu_supports_custom_messaging";
                value := "True"; samesite := "None"; secure := true |} ] |}.
Proof. reflexivity. Qed.

(** * Further properties of the module *)

Section Further.

Variable is_admin : option user_obj -> Py.value.
Variable is_teaching : option user_obj -> Py.value.
Variable login_user : LoginSession.t -> M bool.
Variable to_api_json : LoginSession.t -> json.

(** ** The whiteboard query, in full *)

(** A NULL [:whiteboard_id] joins no row. *)
Lemma count_null_whiteboard_id (d : Db.t) (p : Sql.params) (c : Sql.cond) :
  Sql.p_whiteboard_id p = None -> Sql.count_distinct_user_ids d p c = 0.
Proof.
  intros Hnull.
  destruct (Z.ltb 0 (Sql.count_distinct_user_ids d p c)) eqn:Hc.
  - apply count_distinct_user_ids_pos_iff in Hc.
    destruct Hc as [u [wb [_ [_ [Hp _]]]]]. congruence.
  - apply Z.ltb_ge in Hc. unfold Sql.count_distinct_user_ids in *. lia.
Qed.

(** The condition the query is run with. *)
Lemma chosen_sql_true_iff (d : Db.t) (p : Sql.params) (teaching : bool)
    (u : Db.users_row) (wb : Db.whiteboards_row) :
  Sql.eval d p (if teaching then whiteboard_access_sql
                else Sql.And whiteboard_access_sql Sql.DeletedAtIsNull) u wb
  = Sql.TRUE <->
  Sql.eval d p whiteboard_access_sql u wb = Sql.TRUE
  /\ (teaching = true \/ Db.deleted_at wb = None).
Proof.
  destruct teaching.
  - intuition.
  - cbn [Sql.eval]. rewrite and3_true_iff.
    destruct (Db.deleted_at wb); intuition congruence.
Qed.

Lemma count_pos_iff_reachable (d : Db.t) (course user_id whiteboard_id : Z)
    (teaching : bool) :
  Z.ltb 0 (Sql.count_distinct_user_ids d
             {| Sql.p_course_id := course; Sql.p_user_id := user_id;
                Sql.p_whiteboard_id := Some whiteboard_id |}
             (if teaching then whiteboard_access_sql
              else Sql.And whiteboard_access_sql Sql.DeletedAtIsNull)) = true
  <-> whiteboard_reachable d course teaching user_id whiteboard_id.
Proof.
  rewrite count_distinct_user_ids_pos_iff.
  unfold whiteboard_reachable, member_or_staff. split.
  - intros [u [wb [Hu [Hwb [Hp Hc]]]]].
    apply chosen_sql_true_iff in Hc. destruct Hc as [Hc Hdel].
    apply whiteboard_access_sql_true_iff in Hc. cbn in Hp, Hc.
    injection Hp as Hp. destruct Hc as [Huid [Hcourse Hor]]. split.
    + exists wb. auto.
    + exists u. split; [exact Hu|]. split; [exact Huid|]. rewrite <- Huid.
      destruct Hor as [[wid [[= <-] Hm]] | Hor]; tauto.
  - intros [[wb [Hwb [Hid [Hcourse Hdel]]]] [u [Hu [Huid Hor]]]].
    exists u, wb. split; [exact Hu|]. split; [exact Hwb|].
    split; [cbn; now rewrite Hid|].
    apply chosen_sql_true_iff. split; [|exact Hdel].
    apply whiteboard_access_sql_true_iff. cbn.
    split; [exact Huid|]. split; [exact Hcourse|]. rewrite Huid.
    destruct Hor as [Hm | Hor]; [left; eauto | tauto].
Qed.

(** Every path of [can_access_whiteboard], with its answer and the world it
    leaves. *)
Lemma can_access_whiteboard_cases (user : option user_obj) (whiteboard_id : pyid)
    (w : World) :
  (FEATURE_FLAG_WHITEBOARDS (config w) = false
   /\ can_access_whiteboard is_admin is_teaching user whiteboard_id w
      = (Return (Py.Bool false), w))
  \/ (FEATURE_FLAG_WHITEBOARDS (config w) = true
      /\ Py.truthy (is_admin user) = true
      /\ can_access_whiteboard is_admin is_teaching user whiteboard_id w
         = (Return (Py.Bool true), w))
  \/ (FEATURE_FLAG_WHITEBOARDS (config w) = true
      /\ Py.truthy (is_admin user) = false
      /\ id_truthy (_get_user_id user) = false
      /\ can_access_whiteboard is_admin is_teaching user whiteboard_id w
         = (Return (Py.Bool false), w))
  \/ (exists u user_id,
         FEATURE_FLAG_WHITEBOARDS (config w) = true
         /\ Py.truthy (is_admin user) = false
         /\ user = Some u
         /\ _get_user_id user = Some user_id
         /\ user_id <> 0
         /\ let sql := if Py.truthy (is_teaching user)
                       then whiteboard_access_sql
                       else Sql.And whiteboard_access_sql Sql.DeletedAtIsNull in
            let params := {| Sql.p_course_id := course_id (attr_course u);
                             Sql.p_user_id := user_id;
                             Sql.p_whiteboard_id := whiteboard_id |} in
            can_access_whiteboard is_admin is_teaching user whiteboard_id w
            = (Return (Py.Bool (Z.ltb 0 (Sql.count_distinct_user_ids (db w) params sql))),
               record (SessionExecute sql params) w)).
Proof.
  destruct (FEATURE_FLAG_WHITEBOARDS (config w)) eqn:Hflag.
  2:{ left. split; [reflexivity|].
      unfold can_access_whiteboard, bind, gets. now rewrite Hflag. }
  right. destruct (Py.truthy (is_admin user)) eqn:Hadmin.
  { left. repeat split.
    unfold can_access_whiteboard, bind, gets. now rewrite Hflag, Hadmin. }
  right. destruct (id_truthy (_get_user_id user)) eqn:Hid.
  2:{ left. repeat split.
      unfold can_access_whiteboard, bind, gets. rewrite Hflag, Hadmin. cbn [negb].
      destruct (_get_user_id user) as [n|]; [|reflexivity].
      cbn in Hid. now rewrite Hid. }
  right. apply id_truthy_iff in Hid. destruct Hid as [n [Hn Hnz]].
  destruct user as [u|]; [|discriminate Hn].
  exists u, n. repeat split; auto.
  apply (can_access_whiteboard_queries is_admin is_teaching w u whiteboard_id
           Hflag Hadmin Hn Hnz).
Qed.

(** The answer of [can_access_whiteboard], read off the tables. *)
Lemma can_access_whiteboard_answer (user : option user_obj)
    (whiteboard_id : pyid) (w : World) :
  exists b w',
    can_access_whiteboard is_admin is_teaching user whiteboard_id w
    = (Return (Py.Bool b), w')
    /\ (b = true <->
        FEATURE_FLAG_WHITEBOARDS (config w) = true
        /\ (Py.truthy (is_admin user) = true
            \/ exists u user_id wid,
                 user = Some u
                 /\ _get_user_id user = Some user_id
                 /\ user_id <> 0
                 /\ whiteboard_id = Some wid
                 /\ whiteboard_reachable (db w) (course_id (attr_course u))
                      (Py.truthy (is_teaching user)) user_id wid)).
Proof.
  destruct (can_access_whiteboard_cases user whiteboard_id w)
    as [[Hflag Hrun] | [[Hflag [Hadmin Hrun]] | [[Hflag [Hadmin [Hid Hrun]]]
        | [u [n [Hflag [Hadmin [Hu [Hn [Hnz Hrun]]]]]]]]]];
    cbv zeta in Hrun; rewrite Hrun; do 2 eexists; (split; [reflexivity|]).
  - rewrite Hflag. intuition discriminate.
  - tauto.
  - split; [discriminate|]. intros [_ [H | [u [n [wid [_ [Hn [Hnz _]]]]]]]].
    + congruence.
    + rewrite Hn in Hid. cbn in Hid. apply negb_false_iff, Z.eqb_eq in Hid.
      contradiction.
  - destruct whiteboard_id as [wid|].
    + rewrite count_pos_iff_reachable. split.
      * intros H. split; [exact Hflag|]. right. exists u, n, wid. auto.
      * intros [_ [H | [u' [n' [wid' [Hu' [Hn' [_ [[= <-] H]]]]]]]]]; [congruence|].
        rewrite Hu in Hu'. injection Hu' as <-.
        rewrite Hn in Hn'. injection Hn' as <-. exact H.
    + rewrite count_null_whiteboard_id by reflexivity. cbn. split; [discriminate|].
      intros [_ [H | [u' [n' [wid' [_ [_ [_ [H _]]]]]]]]]; congruence.
Qed.


(** X2. [can_access_whiteboard] executes exactly one query, with the user's
    course id, the resolved id and the whiteboard id as parameters, when the
    flag is on, [is_admin] rejects the user and the resolved id is truthy;
    in every other case it leaves the world as it found it.  It never logs
    and never calls the login manager. *)
Theorem X2_can_access_whiteboard_query_count (user : option user_obj)
    (whiteboard_id : pyid) (w : World) :
  let w' := snd (can_access_whiteboard is_admin is_teaching user whiteboard_id w) in
  if FEATURE_FLAG_WHITEBOARDS (config w)
     && negb (Py.truthy (is_admin user))
     && id_truthy (_get_user_id user)
  then exists u sql p,
         user = Some u
         /\ w' = record (SessionExecute sql p) w
         /\ Sql.p_course_id p = course_id (attr_course u)
         /\ Some (Sql.p_user_id p) = _get_user_id user
         /\ Sql.p_whiteboard_id p = whiteboard_id
  else w' = w.
Proof.
  destruct (can_access_whiteboard_cases user whiteboard_id w)
    as [[Hflag Hrun] | [[Hflag [Hadmin Hrun]] | [[Hflag [Hadmin [Hid Hrun]]]
        | [u [n [Hflag [Hadmin [Hu [Hn [Hnz Hrun]]]]]]]]]];
    cbv zeta in *; rewrite Hrun; cbn [snd].
  - now rewrite Hflag.
  - rewrite Hflag, Hadmin. reflexivity.
  - rewrite Hflag, Hadmin, Hid. reflexivity.
  - rewrite Hflag, Hadmin, Hn. cbn. apply Z.eqb_neq in Hnz. rewrite Hnz. cbn.
    exists u. do 2 eexists. split; [exact Hu|]. split; [reflexivity|]. cbn. auto.
Qed.

Lemma nodup_constant_length (x : Z) (l : list Z) :
  (forall y, In y l -> y = x) -> (List.length (nodup Z.eq_dec l) <= 1)%nat.
Proof.
  intros Hall.
  assert (Hnd : NoDup (nodup Z.eq_dec l)) by apply NoDup_nodup.
  assert (Hin : forall y, In y (nodup Z.eq_dec l) -> y = x).
  { intros y Hy. apply Hall. now apply (nodup_In Z.eq_dec). }
  destruct (nodup Z.eq_dec l) as [|a [|b l']]; cbn; try lia.
  exfalso. inversion Hnd as [|? ? Hnotin _]; subst. apply Hnotin.
  rewrite (Hin a), (Hin b); cbn; auto.
Qed.

(** X3. The count the query returns is 0 or 1, with or without the
    [deleted_at] condition and whatever duplicate rows the tables hold,
    because every counted row has [u.id = :user_id] and the count is over
    distinct ids. *)
Theorem X3_whiteboard_count_is_zero_or_one (d : Db.t) (p : Sql.params)
    (teaching : bool) :
  let sql := if teaching then whiteboard_access_sql
             else Sql.And whiteboard_access_sql Sql.DeletedAtIsNull in
  Sql.count_distinct_user_ids d p sql = 0
  \/ Sql.count_distinct_user_ids d p sql = 1.
Proof.
  intros sql. unfold Sql.count_distinct_user_ids.
  assert (H : (List.length
                 (nodup Z.eq_dec (map (fun uw => Db.u_id (fst uw)) (Sql.joined d p sql)))
               <= 1)%nat).
  { apply nodup_constant_length with (x := Sql.p_user_id p).
    intros y Hy. apply in_map_iff in Hy. destruct Hy as [[u wb] [<- Hin]].
    unfold Sql.joined in Hin. apply filter_In in Hin. destruct Hin as [_ Hc].
    apply andb_true_iff in Hc. destruct Hc as [_ Hc]. cbn [fst snd] in *.
    apply is_true_iff, chosen_sql_true_iff in Hc. destruct Hc as [Hc _].
    apply whiteboard_access_sql_true_iff in Hc. tauto. }
  lia.
Qed.

(** X5. A user that [is_admin] rejects is refused every whiteboard none of
    whose rows is in the user's own course, whether or not [is_teaching]
    accepts the user and whether or not the user is a member. *)
Theorem X5_other_course_whiteboard_refused (u : user_obj) (whiteboard_id : Z)
    (w : World) :
  Py.truthy (is_admin (Some u)) = false ->
  (forall wb, In wb (Db.whiteboards (db w)) ->
              Db.w_id wb = whiteboard_id ->
              Db.w_course_id wb <> course_id (attr_course u)) ->
  fst (can_access_whiteboard is_admin is_teaching (Some u) (Some whiteboard_id) w)
  = Return (Py.Bool false).
Proof.
  intros Hadmin Hother.
  destruct (can_access_whiteboard_cases (Some u) (Some whiteboard_id) w)
    as [[Hflag Hrun] | [[Hflag [Hadmin' Hrun]] | [[Hflag [_ [Hid Hrun]]]
        | [u' [n [Hflag [_ [[= <-] [Hn [Hnz Hrun]]]]]]]]]];
    cbv zeta in *; rewrite Hrun; cbn [fst]; try reflexivity; [congruence|].
  do 2 f_equal.
  destruct (Z.ltb 0 _) eqn:Hc; [|reflexivity].
  apply count_pos_iff_reachable in Hc.
  destruct Hc as [[wb [Hwb [Hid [Hcourse _]]]] _].
  now apply (Hother wb) in Hcourse.
Qed.

(** X6. Counting as teaching never costs access: if [can_access_whiteboard]
    answers [True] under one [is_teaching], it answers [True] under any
    other that accepts the user whenever the first does. *)
Theorem X6_teaching_never_loses_access
    (is_teaching' : option user_obj -> Py.value)
    (user : option user_obj) (whiteboard_id : pyid) (w : World) :
  (Py.truthy (is_teaching user) = true -> Py.truthy (is_teaching' user) = true) ->
  fst (can_access_whiteboard is_admin is_teaching user whiteboard_id w)
  = Return (Py.Bool true) ->
  fst (can_access_whiteboard is_admin is_teaching' user whiteboard_id w)
  = Return (Py.Bool true).
Proof.
  intros Hmore.
  destruct (can_access_whiteboard_cases user whiteboard_id w)
    as [[Hflag Hrun] | [[Hflag [Hadmin Hrun]] | [[Hflag [Hadmin [Hid Hrun]]]
        | [u [n [Hflag [Hadmin [Hu [Hn [Hnz Hrun]]]]]]]]]];
    cbv zeta in Hrun; rewrite Hrun; cbn [fst]; try discriminate.
  - intros _. unfold can_access_whiteboard, bind, gets. now rewrite Hflag, Hadmin.
  - intros [= Hc]. subst user.
    rewrite (can_access_whiteboard_queries is_admin is_teaching' w u whiteboard_id
               Hflag Hadmin Hn Hnz).
    cbn [fst]. do 2 f_equal.
    destruct whiteboard_id as [wid|];
      [|rewrite count_null_whiteboard_id in Hc by reflexivity; discriminate].
    apply count_pos_iff_reachable. apply count_pos_iff_reachable in Hc.
    destruct Hc as [[wb [Hwb [Hid [Hcourse Hdel]]]] Hm]. split; [|exact Hm].
    exists wb. intuition.
Qed.

(** ** Guards, alone and stacked *)

Lemma whiteboard_access_required_denied (func : handler) (args : list mapping)
    (w w' : World) (v : Py.value) :
  can_access_whiteboard is_admin is_teaching (Some (SessionUser (current_user w)))
    match args with
    | a0 :: _ => mapping_get a0 "whiteboardId"
    | [] => None
    end w = (Return v, w') ->
  Py.truthy v = false ->
  whiteboard_access_required is_admin is_teaching func args w
  = (Return (Dict [("status", Py.Int 404)]),
     record (LoggerWarning ("Unauthorized request to " ++ request_path w')) w').
Proof.
  intros Hrun Hfalsy. unfold whiteboard_access_required.
  unfold bind at 1. unfold gets at 1.
  now rewrite (bind_return _ _ _ Hrun), Hfalsy.
Qed.

Lemma whiteboard_access_required_allowed (func : handler) (args : list mapping)
    (w w' : World) (v : Py.value) :
  can_access_whiteboard is_admin is_teaching (Some (SessionUser (current_user w)))
    match args with
    | a0 :: _ => mapping_get a0 "whiteboardId"
    | [] => None
    end w = (Return v, w') ->
  Py.truthy v = true ->
  whiteboard_access_required is_admin is_teaching func args w = func args w'.
Proof.
  intros Hrun Htruthy. unfold whiteboard_access_required.
  unfold bind at 1. unfold gets at 1.
  now rewrite (bind_return _ _ _ Hrun), Htruthy.
Qed.

(** X4. A guarded call without positional arguments, or whose first argument
    has no (or a null) [whiteboardId], is answered with [{'status': 404}]
    for every session that [is_admin] rejects: the handler is not run,
    whatever it is. *)
Theorem X4_missing_whiteboard_id_is_404 (func : handler) (args : list mapping)
    (w : World) :
  match args with
  | a0 :: _ => mapping_get a0 "whiteboardId" = None
  | [] => True
  end ->
  Py.truthy (is_admin (Some (SessionUser (current_user w)))) = false ->
  fst (whiteboard_access_required is_admin is_teaching func args w)
  = Return (Dict [("status", Py.Int 404)])
  /\ forall func',
       whiteboard_access_required is_admin is_teaching func' args w
       = whiteboard_access_required is_admin is_teaching func args w.
Proof.
  intros Hargs Hadmin.
  assert (Hrun : exists w',
             can_access_whiteboard is_admin is_teaching
               (Some (SessionUser (current_user w)))
               match args with
               | a0 :: _ => mapping_get a0 "whiteboardId"
               | [] => None
               end w = (Return (Py.Bool false), w')).
  { destruct args as [|a0 rest]; cbv beta iota in *; [|rewrite Hargs];
    destruct (can_access_whiteboard_cases (Some (SessionUser (current_user w))) None w)
      as [[Hflag Hrun] | [[Hflag [Hadmin' Hrun]] | [[Hflag [_ [Hid Hrun]]]
          | [u' [n [Hflag [_ [_ [Hn [Hnz Hrun]]]]]]]]]];
      cbv zeta in Hrun; rewrite Hrun; eauto; try congruence;
      rewrite count_null_whiteboard_id by reflexivity; eauto. }
  destruct Hrun as [w' Hrun].
  pose proof (fun f => @whiteboard_access_required_denied f args w w' _ Hrun eq_refl)
    as Hdenied.
  split; [|intros func']; rewrite !Hdenied; reflexivity.
Qed.

(** X7. While the flag is off, [whiteboard_access_required] answers every
    call with [{'status': 404}] after one warning, without a query and
    without running the handler, administrators included.  Put under
    [feature_flag_whiteboards], the same call is answered by the login
    manager's unauthorized response instead, the inner guard never being
    reached.  While the flag is on, [feature_flag_whiteboards] adds nothing
    to what it wraps. *)
Theorem X7_flag_guard_over_whiteboard_guard (func : handler) (args : list mapping)
    (w : World) :
  if FEATURE_FLAG_WHITEBOARDS (config w)
  then feature_flag_whiteboards (whiteboard_access_required is_admin is_teaching func)
         args w
       = whiteboard_access_required is_admin is_teaching func args w
  else whiteboard_access_required is_admin is_teaching func args w
       = (Return (Dict [("status", Py.Int 404)]),
          record (LoggerWarning ("Unauthorized request to " ++ request_path w)) w)
       /\ feature_flag_whiteboards (whiteboard_access_required is_admin is_teaching func)
            args w
          = (Return UnauthorizedResponse,
             record LoginManagerUnauthorized
               (record (LoggerWarning "Feature flag is false.") w)).
Proof.
  destruct (FEATURE_FLAG_WHITEBOARDS (config w)) eqn:Hflag.
  - unfold feature_flag_whiteboards. unfold bind at 1. unfold gets at 1.
    now rewrite Hflag.
  - split; [|now apply feature_flag_whiteboards_rejects].
    apply whiteboard_access_required_denied with (v := Py.Bool false);
      [|reflexivity].
    unfold can_access_whiteboard, bind, gets. now rewrite Hflag.
Qed.

(** X8. Each of the three simple guards is idempotent: wrapping a handler
    twice behaves, on every call and in every world, as wrapping it once
    (no second warning, no second rejection). *)
Theorem X8_simple_guards_idempotent (func : handler) (args : list mapping)
    (w : World) :
  admin_required (admin_required func) args w = admin_required func args w
  /\ teacher_required (teacher_required func) args w = teacher_required func args w
  /\ feature_flag_whiteboards (feature_flag_whiteboards func) args w
     = feature_flag_whiteboards func args w.
Proof.
  split; [|split].
  - cbv beta iota delta [admin_required bind gets].
    destruct (LoginSession.is_admin (current_user w)) eqn:H; rewrite ?H; reflexivity.
  - cbv beta iota zeta delta [teacher_required bind gets].
    destruct (LoginSession.is_authenticated (current_user w)
              && (LoginSession.is_admin (current_user w)
                  || LoginSession.is_teaching (current_user w))) eqn:H;
      rewrite ?H; reflexivity.
  - cbv beta iota delta [feature_flag_whiteboards bind gets].
    destruct (FEATURE_FLAG_WHITEBOARDS (config w)) eqn:H; rewrite ?H; reflexivity.
Qed.

(** X9. [admin_required] looks at the admin flag only and [teacher_required]
    also at authentication: a session with the admin flag passes
    [admin_required] always, and passes [teacher_required] (to the same
    effect) iff it is authenticated; otherwise [teacher_required] rejects it
    with a warning and the unauthorized response. *)
Theorem X9_admin_guard_ignores_authentication (func : handler)
    (args : list mapping) (w : World) :
  LoginSession.is_admin (current_user w) = true ->
  admin_required func args w = func args w
  /\ if LoginSession.is_authenticated (current_user w)
     then teacher_required func args w = func args w
     else teacher_required func args w
          = (Return UnauthorizedResponse,
             record LoginManagerUnauthorized
               (record (LoggerWarning ("Unauthorized request to " ++ request_path w)) w)).
Proof.
  intros Hadmin. split.
  - unfold admin_required, bind, gets. now rewrite Hadmin.
  - destruct (LoginSession.is_authenticated (current_user w)) eqn:Hauth.
    + unfold teacher_required, bind, gets. now rewrite Hauth, Hadmin.
    + apply teacher_required_rejects. now rewrite Hauth.
Qed.

(** X10. When [can_access_whiteboard] answers with a truthy value, the
    guarded handler runs with the arguments untouched, in the world that
    [can_access_whiteboard] left (so after its query), and its outcome is the
    outcome of the call: no warning is logged. *)
Theorem X10_whiteboard_access_granted_runs_handler (func : handler)
    (args : list mapping) (w w' : World) (v : Py.value) :
  can_access_whiteboard is_admin is_teaching (Some (SessionUser (current_user w)))
    match args with
    | a0 :: _ => mapping_get a0 "whiteboardId"
    | [] => None
    end w = (Return v, w') ->
  Py.truthy v = true ->
  whiteboard_access_required is_admin is_teaching func args w = func args w'.
Proof.
  intros Hrun Htruthy. unfold whiteboard_access_required.
  unfold bind at 1. unfold gets at 1.
  now rewrite (bind_return _ _ _ Hrun), Htruthy.
Qed.

(** X11. With the flag on, a session that [is_admin] accepts passes
    [whiteboard_access_required] on every call, with or without a whiteboard
    id and whether or not such a whiteboard exists; no query is made and the
    handler runs in the unchanged world. *)
Theorem X11_admin_passes_whiteboard_guard (func : handler) (args : list mapping)
    (w : World) :
  FEATURE_FLAG_WHITEBOARDS (config w) = true ->
  Py.truthy (is_admin (Some (SessionUser (current_user w)))) = true ->
  whiteboard_access_required is_admin is_teaching func args w = func args w.
Proof.
  intros Hflag Hadmin.
  apply whiteboard_access_required_allowed with (v := Py.Bool true); [|reflexivity].
  unfold can_access_whiteboard, bind, gets. now rewrite Hflag, Hadmin.
Qed.

(** ** Assets *)


(** X13. An administrator of another course may view an asset but not
    update it: [can_view_asset] lets the admin flag override the course
    test, [can_update_asset] tests the course first and answers [False]
    without consulting [is_admin]. *)
Theorem X13_admin_views_but_does_not_update_across_courses (u : user_obj)
    (asset : Asset.t) (w : World) :
  attr_is_admin u = true ->
  course_id (attr_course u) <> Asset.course_id asset ->
  can_view_asset asset (Some u) w = (Return (Py.Bool true), w)
  /\ can_update_asset is_admin is_teaching (Some u) asset w
     = (Return (Py.Bool false), w).
Proof.
  intros Hadmin Hcourse. split.
  - unfold can_view_asset, bind, getattr, ret. now rewrite Hadmin.
  - unfold can_update_asset, bind, getattr, ret.
    apply Z.eqb_neq in Hcourse. now rewrite Hcourse.
Qed.

(** X14. Permission to update does not bring permission to view.  A user
    without the admin flag, of the asset's course, whom [is_teaching] or
    [is_admin] accepts or whose id is among the asset's users, may update a
    hidden asset, and is refused the view of it unless the asset is among
    the session user's assets. *)
Theorem X14_update_without_view (u : user_obj) (asset : Asset.t) (w : World) :
  attr_is_admin u = false ->
  course_id (attr_course u) = Asset.course_id asset ->
  Asset.visible asset = false ->
  ~ In (Asset.id asset) (User.assets (LoginSession.user (current_user w))) ->
  (Py.truthy (is_teaching (Some u)) = true
   \/ Py.truthy (is_admin (Some u)) = true
   \/ In (_get_user_id (Some u)) (map User.id (Asset.users asset))) ->
  (exists v,
      can_update_asset is_admin is_teaching (Some u) asset w = (Return v, w)
      /\ Py.truthy v = true)
  /\ can_view_asset asset (Some u) w = (Return (Py.Bool false), w).
Proof.
  intros Hadmin Hcourse Hvis Hnot Hmay. split.
  - unfold can_update_asset, bind, getattr, ret.
    rewrite Hcourse, Z.eqb_refl.
    destruct (Py.truthy (is_teaching (Some u))) eqn:Ht; [eauto|].
    destruct (Py.truthy (is_admin (Some u))) eqn:Ha; [eauto|].
    eexists. split; [reflexivity|]. cbn [Py.truthy].
    apply existsb_id_eqb_iff. intuition congruence.
  - unfold can_view_asset, bind, getattr, ret, gets.
    rewrite Hadmin, Hcourse, Z.eqb_refl, Hvis. cbn [negb].
    do 3 f_equal.
    destruct (existsb _ _) eqn:He; [|reflexivity].
    apply existsb_Zeqb_iff in He. contradiction.
Qed.

(** ** Login *)

(** X15. After a login that establishes an authenticated session, and with a
    Canvas record for the course's API domain, [start_login_session] returns
    a redirect to the base URL followed by [redirect_path] when that path is
    truthy and the JSON profile otherwise, carrying exactly two cookies, in
    this order: [{domain}|{canvas_course_id}] with the session user's id,
    and [{domain}_supports_custom_messaging] with [True] or [False]; both
    [SameSite=None] and secure.  The cookies are those of [current_user]
    after the login, and [tool_id] plays no part. *)
Theorem X15_login_success_sets_two_cookies (login_session : LoginSession.t)
    (redirect_path tool_id : option string) (w w' : World) (c : Canvas.t) :
  login_user login_session w = (Return true, w') ->
  LoginSession.is_authenticated (current_user w') = true ->
  find (fun c => String.eqb (Canvas.canvas_api_domain c)
                            (canvas_api_domain (LoginSession.course (current_user w'))))
       (Db.canvas (db w')) = Some c ->
  let cu := current_user w' in
  let domain := canvas_api_domain (LoginSession.course cu) in
  start_login_session login_user to_api_json login_session redirect_path tool_id w
  = (Return
       {| response_body :=
            if str_truthy redirect_path
            then RedirectBody
                   (match VUE_LOCALHOST_BASE_URL (config w') with
                    | Some base => base
                    | None => EmptyString
                    end ++ str_opt redirect_path)
            else JsonBody (to_api_json cu);
          status := if str_truthy redirect_path then 302 else 200;
          cookies :=
            [ {| key := (domain ++ "|"
                         ++ Py.str_int (canvas_course_id (LoginSession.course cu)))%string;
                 value := str_id (LoginSession.user_id cu);
                 samesite := "None"; secure := true |};
              {| key := (domain ++ "_supports_custom_messaging")%string;
                 value := Py.str_bool (Canvas.supports_custom_messaging c);
                 samesite := "None"; secure := true |} ] |},
     w').
Proof.
  intros Hlogin Hauth Hcanvas cu domain.
  unfold start_login_session. rewrite (bind_return _ _ _ Hlogin).
  unfold bind at 1. unfold gets at 1. rewrite Hauth. cbn [andb].
  unfold bind at 1. unfold gets at 1.
  unfold bind, find_by_domain, gets. rewrite Hcanvas. unfold ret.
  f_equal. f_equal.
  destruct (str_truthy redirect_path); [|reflexivity].
  unfold set_cookie, redirect. cbn. do 2 f_equal.
  destruct (VUE_LOCALHOST_BASE_URL (config w')) as [base|]; [|reflexivity].
  destruct base; reflexivity.
Qed.

(** X16. When the login succeeds but no Canvas record matches the course's
    API domain, [start_login_session] returns no response: reading
    [supports_custom_messaging] off [None] raises [AttributeError], in the
    world in which the user is already logged in. *)
Theorem X16_login_without_canvas_record_faults (login_session : LoginSession.t)
    (redirect_path tool_id : option string) (w w' : World) :
  login_user login_session w = (Return true, w') ->
  LoginSession.is_authenticated (current_user w') = true ->
  find (fun c => String.eqb (Canvas.canvas_api_domain c)
                            (canvas_api_domain (LoginSession.course (current_user w'))))
       (Db.canvas (db w')) = None ->
  start_login_session login_user to_api_json login_session redirect_path tool_id w
  = (Raise (AttributeError "NoneType" "supports_custom_messaging"), w').
Proof.
  intros Hlogin Hauth Hcanvas.
  unfold start_login_session. rewrite (bind_return _ _ _ Hlogin).
  unfold bind at 1. unfold gets at 1. rewrite Hauth. cbn [andb].
  unfold bind at 1. unfold gets at 1.
  unfold bind, find_by_domain, gets. now rewrite Hcanvas.
Qed.

(** ** Enum filtering and role matching *)

Lemma filter_idempotent {A : Type} (f : A -> bool) (l : list A) :
  filter f (filter f l) = filter f l.
Proof.
  induction l as [|x l IH]; [reflexivity|].
  cbn [filter]. destruct (f x) eqn:Hx; [|exact IH].
  cbn [filter]. now rewrite Hx, IH.
Qed.

(** X17. Filtering by the feature flag is idempotent: filtering the result
    of [_filter_per_feature_flag] again changes nothing, with the flag on or
    off. *)
Theorem X17_filter_per_feature_flag_idempotent (enums : list string) (w : World) :
  bind (_filter_per_feature_flag enums) _filter_per_feature_flag w
  = _filter_per_feature_flag enums w.
Proof.
  unfold _filter_per_feature_flag, bind, gets, ret.
  destruct (FEATURE_FLAG_WHITEBOARDS (config w)); [reflexivity|].
  now rewrite filter_idempotent.
Qed.






(** X19. The query starts from the [users] table: a user that [is_admin]
    rejects and whose resolved id has no row there is refused every
    whiteboard, even one that [whiteboard_users] lists the id for. *)
Theorem X19_user_without_row_refused (user : option user_obj) (user_id : Z)
    (whiteboard_id : pyid) (w : World) :
  Py.truthy (is_admin user) = false ->
  _get_user_id user = Some user_id ->
  (forall row, In row (Db.users (db w)) -> Db.u_id row <> user_id) ->
  fst (can_access_whiteboard is_admin is_teaching user whiteboard_id w)
  = Return (Py.Bool false).
Proof.
  intros Hadmin Hid Hnone.
  destruct (can_access_whiteboard_answer user whiteboard_id w) as [b [w' [Hb Hiff]]].
  rewrite Hb. cbn [fst]. do 2 f_equal.
  destruct b; [|reflexivity].
  destruct Hiff as [Hiff _]. destruct (Hiff eq_refl) as [_ [H | H]]; [congruence|].
  destruct H as [u [n [wid [_ [Hn [_ [_ [_ [row [Hrow [Hrid _]]]]]]]]]]].
  rewrite Hid in Hn. injection Hn as <-. now apply Hnone in Hrow.
Qed.

End Further.

(** * The further properties on the sample data *)

(** The student calls a guarded handler without arguments. *)
Lemma X4_witness_no_arguments :
  fst (whiteboard_access_required Sample.is_admin Sample.is_teaching Sample.handle
         [] (Sample.world true Sample.student))
  = Return (Dict [("status", Py.Int 404)])
  /\ forall func',
       whiteboard_access_required Sample.is_admin Sample.is_teaching func'
         [] (Sample.world true Sample.student)
       = whiteboard_access_required Sample.is_admin Sample.is_teaching Sample.handle
           [] (Sample.world true Sample.student).
Proof.
  apply (X4_missing_whiteboard_id_is_404 Sample.is_admin Sample.is_teaching
           Sample.handle [] (Sample.world true Sample.student)).
  - exact I.
  - reflexivity.
Defined.

(** The teacher of course 2 asks for whiteboard 101 of course 1. *)
Lemma X5_witness_teacher_of_other_course :
  fst (can_access_whiteboard Sample.is_admin Sample.is_teaching
         (Some (SessionUser Sample.teacher2)) (Some 101)
         (Sample.world true Sample.teacher2))
  = Return (Py.Bool false).
Proof.
  apply (@X5_other_course_whiteboard_refused Sample.is_admin Sample.is_teaching
           (SessionUser Sample.teacher2) 101 (Sample.world true Sample.teacher2)).
  - reflexivity.
  - intros wb [<- | [<- | []]] _; simpl; lia.
Defined.

(** The student reaches whiteboard 101, and still does when counted as
    teaching. *)
Lemma X6_witness_student_promoted :
  fst (can_access_whiteboard Sample.is_admin Sample.everyone
         (Some (SessionUser Sample.student)) (Some 101)
         (Sample.world true Sample.student))
  = Return (Py.Bool true).
Proof.
  apply (X6_teaching_never_loses_access Sample.is_admin Sample.is_teaching
           Sample.everyone (Some (SessionUser Sample.student)) (Some 101)
           (Sample.world true Sample.student)).
  - intros _. reflexivity.
  - reflexivity.
Defined.

(** A session with the admin flag that is not authenticated passes the
    admin guard and is stopped by the teacher guard. *)
Lemma X9_witness_unauthenticated_admin :
  admin_required Sample.handle [] (Sample.world true Sample.ghost_admin)
  = Sample.handle [] (Sample.world true Sample.ghost_admin)
  /\ teacher_required Sample.handle [] (Sample.world true Sample.ghost_admin)
     = (Return UnauthorizedResponse,
        record LoginManagerUnauthorized
          (record (LoggerWarning "Unauthorized request to /api/whiteboard/100")
                  (Sample.world true Sample.ghost_admin))).
Proof.
  apply (X9_admin_guard_ignores_authentication Sample.handle []
           (Sample.world true Sample.ghost_admin)).
  reflexivity.
Defined.

(** The teacher's call for whiteboard 100 reaches the handler, after the
    query. *)
Lemma X10_witness_teacher_reaches_handler :
  whiteboard_access_required Sample.is_admin Sample.is_teaching Sample.handle
    [[("whiteboardId", Some 100)]] (Sample.world true Sample.teacher)
  = Sample.handle [[("whiteboardId", Some 100)]]
      (record (SessionExecute whiteboard_access_sql (Sample.params100 8))
              (Sample.world true Sample.teacher)).
Proof.
  apply (@X10_whiteboard_access_granted_runs_handler
           Sample.is_admin Sample.is_teaching Sample.handle
           [[("whiteboardId", Some 100)]] (Sample.world true Sample.teacher)
           (record (SessionExecute whiteboard_access_sql (Sample.params100 8))
                   (Sample.world true Sample.teacher))
           (Py.Bool true)).
  - reflexivity.
  - reflexivity.
Defined.

(** The administrator's call without arguments reaches the handler. *)
Lemma X11_witness_admin_without_whiteboard :
  whiteboard_access_required Sample.is_admin Sample.is_teaching Sample.handle
    [] (Sample.world true Sample.admin)
  = Sample.handle [] (Sample.world true Sample.admin).
Proof.
  apply (X11_admin_passes_whiteboard_guard Sample.is_admin Sample.is_teaching
           Sample.handle [] (Sample.world true Sample.admin));
    reflexivity.
Defined.

(** The administrator of course 2 and the hidden asset 70 of course 1. *)
Lemma X13_witness_admin_of_other_course :
  can_view_asset (Sample.asset70 false) (Some (SessionUser Sample.admin2))
    (Sample.world true Sample.admin2)
  = (Return (Py.Bool true), Sample.world true Sample.admin2)
  /\ can_update_asset Sample.is_admin Sample.is_teaching
       (Some (SessionUser Sample.admin2)) (Sample.asset70 false)
       (Sample.world true Sample.admin2)
     = (Return (Py.Bool false), Sample.world true Sample.admin2).
Proof.
  apply (X13_admin_views_but_does_not_update_across_courses
           Sample.is_admin Sample.is_teaching (SessionUser Sample.admin2)
           (Sample.asset70 false) (Sample.world true Sample.admin2)).
  - reflexivity.
  - simpl. lia.
Defined.

(** The teacher may update the hidden asset 70 and may not view it. *)
Lemma X14_witness_teacher_updates_unseen :
  (exists v,
      can_update_asset Sample.is_admin Sample.is_teaching
        (Some (SessionUser Sample.teacher)) (Sample.asset70 false)
        (Sample.world true Sample.teacher)
      = (Return v, Sample.world true Sample.teacher)
      /\ Py.truthy v = true)
  /\ can_view_asset (Sample.asset70 false) (Some (SessionUser Sample.teacher))
       (Sample.world true Sample.teacher)
     = (Return (Py.Bool false), Sample.world true Sample.teacher).
Proof.
  apply (X14_update_without_view Sample.is_admin Sample.is_teaching
           (SessionUser Sample.teacher) (Sample.asset70 false)
           (Sample.world true Sample.teacher)).
  - reflexivity.
  - reflexivity.
  - reflexivity.
  - simpl. tauto.
  - left. reflexivity.
Defined.

(** The student logs in without a redirect path. *)
Lemma X15_witness_student_login :
  start_login_session Sample.login_user Sample.to_api_json Sample.student
    None (Some "asset_library") (Sample.world true Sample.admin)
  = (Return
       {| response_body := JsonBody (Sample.to_api_json Sample.student);
          status := 200;
          cookies :=
            [ {| key := "bcourses.example.edu|1502870"; value := "7";
                 samesite := "None"; secure := true |};
              {| key := "bcourses.example.edu_supports_custom_messaging";
                 value := "True"; samesite := "None"; secure := true |} ] |},
     Sample.world true Sample.student).
Proof.
  apply (@X15_login_success_sets_two_cookies Sample.login_user Sample.to_api_json
           Sample.student None (Some "asset_library")
           (Sample.world true Sample.admin) (Sample.world true Sample.student)
           Sample.canvas_record).
  - reflexivity.
  - reflexivity.
  - reflexivity.
Defined.

(** The same login over a database without Canvas records. *)
Lemma X16_witness_login_without_canvas :
  start_login_session Sample.login_user Sample.to_api_json Sample.student
    (Some "/assets") None (Sample.world_without_canvas Sample.admin)
  = (Raise (AttributeError "NoneType" "supports_custom_messaging"),
     Sample.world_without_canvas Sample.student).
Proof.
  apply (@X16_login_without_canvas_record_faults Sample.login_user
           Sample.to_api_json Sample.student (Some "/assets") None
           (Sample.world_without_canvas Sample.admin)
           (Sample.world_without_canvas Sample.student)).
  - reflexivity.
  - reflexivity.
  - reflexivity.
Defined.

(** A session whose id 42 is in no row of the [users] table. *)
Lemma X19_witness_unlisted_session :
  fst (can_access_whiteboard Sample.is_admin Sample.is_teaching
         (Some (SessionUser Sample.unlisted)) (Some 101)
         (Sample.world true Sample.unlisted))
  = Return (Py.Bool false).
Proof.
  apply (@X19_user_without_row_refused Sample.is_admin Sample.is_teaching
           (Some (SessionUser Sample.unlisted)) 42 (Some 101)
           (Sample.world true Sample.unlisted)).
  - reflexivity.
  - reflexivity.
  - intros row [<- | [<- | [<- | []]]]; simpl; lia.
Defined.
